(** * Chromalyze: a shallow embedding of the analysis front end and of its core

    The front-end components (upload form, walkthrough flow, results display,
    the compatibility record assembled for the walkthrough) are translated
    from the TypeScript sources.  The analysis core (face-shape classifier,
    colour statistics, season classifier, recommendation assembler) lives in
    [lib/analysis-service], which is not part of the sources; those pieces
    are modelled from the spec and say so in their doc comments. *)

From Stdlib Require Import String Ascii List ZArith QArith Qminmax Qabs Lia.
From Stdlib Require Import Reals Qreals Lra Permutation.
Import ListNotations.
Open Scope string_scope.

(* ------------------------------------------------------------------ *)
(** ** Walkthrough flow (components/color-draping/walkthrough-flow.tsx) *)

Module Walkthrough.

(** Inputs reaching the component: the two navigation handlers (buttons,
    keyboard and swipe all call [handleNext]/[handlePrevious]) and the
    expiry of a 200ms [setTimeout] scheduled by one of them. *)
Inductive Event :=
| Next
| Previous
| TimerFires.

(** Calls of the callbacks passed in as props. *)
Inductive Effect :=
| OnComplete
| OnBack.

(** React state of the component plus the queue of pending timeouts; a
    pending timeout holds the functional update it will apply
    ([prev => prev + 1] or [prev => prev - 1]) as a delta.  All timeouts
    have the same 200ms delay, so they fire in the order scheduled. *)
Record State := mkState {
  currentIndex : Z;
  isTransitioning : bool;
  pending : list Z;
  effects : list Effect
}.

Definition init : State := mkState 0 false [] [].

(** [handleNext]: reads [currentIndex] of the last render. *)
Definition handleNext (totalColors : Z) (s : State) : State :=
  if Z.eqb (currentIndex s) (totalColors - 1) then
    mkState (currentIndex s) (isTransitioning s) (pending s)
            (effects s ++ [OnComplete])
  else
    mkState (currentIndex s) true (pending s ++ [1%Z]) (effects s).

(** [handlePrevious] *)
Definition handlePrevious (s : State) : State :=
  if Z.eqb (currentIndex s) 0 then
    mkState (currentIndex s) (isTransitioning s) (pending s)
            (effects s ++ [OnBack])
  else
    mkState (currentIndex s) true (pending s ++ [(-1)%Z]) (effects s).

(** The oldest pending timeout runs
    [setCurrentIndex(prev => prev + d); setIsTransitioning(false)]. *)
Definition fireTimer (s : State) : State :=
  match pending s with
  | [] => s
  | d :: rest => mkState (currentIndex s + d) false rest (effects s)
  end.

Definition step (totalColors : Z) (s : State) (e : Event) : State :=
  match e with
  | Next => handleNext totalColors s
  | Previous => handlePrevious s
  | TimerFires => fireTimer s
  end.

Definition run (totalColors : Z) (s : State) (es : list Event) : State :=
  fold_left (step totalColors) es s.

(** A user action whose transition completes before the next action:
    the handler, then its timeout if it scheduled one. *)
Definition atomicStep (totalColors : Z) (s : State) (e : Event) : State :=
  fireTimer (step totalColors s e).

Definition runAtomic (totalColors : Z) (s : State) (es : list Event) : State :=
  fold_left (atomicStep totalColors) es s.

Definition inRange (totalColors : Z) (s : State) : Prop :=
  (0 <= currentIndex s <= totalColors - 1)%Z.

End Walkthrough.

(* ------------------------------------------------------------------ *)
(** ** Upload form: [onDrop] and the entry guard of [handleSubmit]
    (components/analyze/upload-form.tsx) *)

Module Upload.

(** The fields of a browser [File] that [onDrop] reads. *)
Record File := mkFile {
  type : string;
  size : Z
}.

Record FormState := mkForm {
  file : option File;
  preview : option string;
  error : option string
}.

Definition maxSize : Z := 5 * 1024 * 1024.

(** [onDrop(acceptedFiles)]; [createObjectURL] stands for
    [URL.createObjectURL].  [None] is the [TypeError] thrown by
    [acceptedFiles[0].type] when the list is empty. *)
Definition onDrop (createObjectURL : File -> string)
    (acceptedFiles : list File) (s : FormState) : option FormState :=
  let s := mkForm (file s) (preview s) None in
  match acceptedFiles with
  | [] => None
  | selectedFile :: _ =>
      if negb (String.prefix "image/" (type selectedFile)) then
        Some (mkForm (file s) (preview s) (Some "Please upload an image file"))
      else if Z.ltb maxSize (size selectedFile) then
        Some (mkForm (file s) (preview s) (Some "File size should be less than 5MB"))
      else
        Some (mkForm (Some selectedFile) (Some (createObjectURL selectedFile))
                     (error s))
  end.

(** [handleSubmit]: [if (!file) return], otherwise the analysis runs. *)
Definition entersPipeline (s : FormState) : bool :=
  match file s with
  | Some _ => true
  | None => false
  end.

Definition validUpload (f : File) : bool :=
  String.prefix "image/" (type f) && Z.leb (size f) maxSize.

End Upload.

(* ------------------------------------------------------------------ *)
(** ** Results display (app/analyze/[id]/results-display.tsx) and the
    entry component choosing it (AnalysisResultsEntry) *)

Module Results.

Record ColorObject := mkColor {
  name : string;
  hex : string
}.

Record Palette := mkPalette {
  description : string;
  recommended : list ColorObject;
  avoid : list ColorObject
}.

Record FaceShapeRecommendations := mkFsr {
  fsr_description : string;
  strengths : list string;
  hairstyles_recommended : list string;
  hairstyles_avoid : list string;
  makeup_contouring : string;
  makeup_eyebrows : string;
  makeup_eyes : string;
  makeup_lips : string;
  accessories_earrings : string;
  accessories_glasses : string;
  accessories_hats : string
}.

(** The backend result as parsed from JSON.  [color_season] is declared
    [string], but nothing checks the JSON: a missing field arrives as
    [undefined], modelled as [None]; React renders [{undefined}] as
    nothing. *)
Record AnalysisResult := mkResult {
  face_shape : string;
  color_season : option string;
  faces_detected : option Z;
  palette : option Palette;
  face_shape_recommendations : option FaceShapeRecommendations
}.

Definition text (o : option string) : string :=
  match o with
  | Some s => s
  | None => ""
  end.

(** [String(n)] for an integer [n]. *)
Fixpoint digits (fuel : nat) (n : Z) (acc : string) : string :=
  match fuel with
  | O => acc
  | S fuel' =>
      let acc' := String (ascii_of_nat (48 + Z.to_nat (n mod 10))) acc in
      if Z.eqb (n / 10) 0 then acc' else digits fuel' (n / 10) acc'
  end.

Definition string_of_Z (n : Z) : string :=
  if Z.ltb n 0 then "-" ++ digits (S (Z.to_nat (Z.log2 (- n)))) (- n) ""
  else digits (S (Z.to_nat (Z.log2 n))) n "".

(** [String.prototype.toLowerCase] on the ASCII range. *)
Definition lower_ascii (c : ascii) : ascii :=
  let n := nat_of_ascii c in
  if (Nat.leb 65 n && Nat.leb n 90)%bool then ascii_of_nat (n + 32) else c.

Fixpoint toLowerCase (s : string) : string :=
  match s with
  | EmptyString => EmptyString
  | String c r => String (lower_ascii c) (toLowerCase r)
  end.

(** The names an object literal inherits from [Object.prototype]: a
    lookup [o[k]] with one of them as [k] finds the inherited member (a
    function, or [Object.prototype] itself for [__proto__]), a truthy
    value that is not an array and has no [map] method. *)
Definition objectPrototypeKeys : list string :=
  ["constructor"; "__defineGetter__"; "__defineSetter__"; "hasOwnProperty";
   "__lookupGetter__"; "__lookupSetter__"; "isPrototypeOf";
   "propertyIsEnumerable"; "toString"; "valueOf"; "__proto__";
   "toLocaleString"].

Definition isPrototypeKey (k : string) : bool :=
  existsb (String.eqb k) objectPrototypeKeys.

(** The own properties of the [recommendations] literal. *)
Definition ownRecommendations (faceShape : string) : option (list string) :=
  if String.eqb faceShape "Oval" then
    Some ["Most hairstyles and accessories work well with your balanced proportions";
          "Experiment with different styles as your face shape is versatile";
          "Your face shape is considered ideal for most styles"]
  else if String.eqb faceShape "Round" then
    Some ["Angular frames and accessories to add definition";
          "Hairstyles with volume at the crown to elongate the face";
          "V-neck tops and vertical patterns to create a slimming effect"]
  else if String.eqb faceShape "Square" then
    Some ["Oval or round frames to soften angular features";
          "Side-swept bangs and layered hairstyles to soften jawline";
          "Round or curved accessories to balance sharp angles"]
  else if String.eqb faceShape "Heart" then
    Some ["Bottom-heavy frames or accessories to balance a wider forehead";
          "Hairstyles with volume at the jaw area to create balance";
          "Choker necklaces and V-necks to draw attention away from a narrow chin"]
  else if String.eqb faceShape "Diamond" then
    Some ["Frames that emphasize the eyes and soften cheekbones";
          "Hairstyles with width at the forehead and jaw to balance pronounced cheekbones";
          "Statement earrings to complement your striking cheekbones"]
  else if String.eqb faceShape "Oblong" then
    Some ["Horizontal lines and patterns to break up the length of the face";
          "Hairstyles with width at the sides to create the illusion of a wider face";
          "Avoid high necklines and opt for wider necklines instead"]
  else if String.eqb faceShape "Triangle" then
    Some ["Top-heavy frames and accessories to balance a wider jawline";
          "Hairstyles with volume at the crown to balance a wider jaw";
          "Statement necklaces to draw attention upward from the jaw"]
  else None.

Definition defaultRecommendations : list string :=
  ["Experiment with different styles to find what works best for you";
   "Consider consulting with a professional stylist for personalized recommendations";
   "Balance is key - choose styles that enhance your unique features"].

(** The value of [recommendations[faceShape] || [...]]: one of the
    literal's arrays, or the member inherited under that name. *)
Inductive LookupValue :=
| JsArray (items : list string)
| InheritedMember (key : string).

(** [getFaceShapeRecommendations]: an own property, else an inherited
    member (truthy, so [||] keeps it), else the default. *)
Definition getFaceShapeRecommendations (faceShape : string) : LookupValue :=
  match ownRecommendations faceShape with
  | Some l => JsArray l
  | None =>
      if isPrototypeKey faceShape then InheritedMember faceShape
      else JsArray defaultRecommendations
  end.

(** [v.map(f)]: the items of an array; on an inherited member, which has
    no [map] method, a [TypeError] is thrown. *)
Definition mapItems (v : LookupValue) : option (list string) :=
  match v with
  | JsArray l => Some l
  | InheritedMember _ => None
  end.

(** The rendered page as the sequence of its text lines. *)

Definition facesBanner (n : Z) : string :=
  if Z.eqb n 0 then "No face detected, providing general analysis"
  else if Z.eqb n 1 then "1 face detected"
  else string_of_Z n ++ " faces detected (analyzed primary face)".

Definition header (r : AnalysisResult) : list string :=
  ["Analysis Complete"] ++
  match faces_detected r with
  | Some n => [facesBanner n]
  | None => []
  end.

Definition recommendationLines (fsr : FaceShapeRecommendations) : list string :=
  [fsr_description fsr; "Your Natural Strengths:"] ++ strengths fsr ++
  ["Recommended Hairstyles:"] ++ firstn 4 (hairstyles_recommended fsr) ++
  ["Hairstyles to Avoid:"] ++ firstn 3 (hairstyles_avoid fsr) ++
  ["Makeup Tips:";
   "Contouring: " ++ makeup_contouring fsr;
   "Eyebrows: " ++ makeup_eyebrows fsr;
   "Eyes: " ++ makeup_eyes fsr;
   "Lips: " ++ makeup_lips fsr;
   "Accessory Recommendations:";
   "Earrings: " ++ accessories_earrings fsr;
   "Glasses: " ++ accessories_glasses fsr;
   "Hats: " ++ accessories_hats fsr].

Definition basicLines (r : AnalysisResult) (recs : list string) : list string :=
  ["Your face has characteristics of a " ++ toLowerCase (face_shape r) ++ " shape.";
   "Basic Recommendations for " ++ face_shape r ++ " faces:"] ++ recs.

(** The face-shape section; [None] when rendering it throws. *)
Definition faceShapeSection (r : AnalysisResult) : option (list string) :=
  match face_shape_recommendations r with
  | Some fsr => Some (("Face Shape: " ++ face_shape r) :: recommendationLines fsr)
  | None =>
      match mapItems (getFaceShapeRecommendations (face_shape r)) with
      | Some recs => Some (("Face Shape: " ++ face_shape r) :: basicLines r recs)
      | None => None
      end
  end.

Definition colorSeasonSection (r : AnalysisResult) : list string :=
  ["Color Season: " ++ text (color_season r);
   "Your color analysis indicates you're a " ++ text (color_season r) ++ " type."] ++
  match palette r with
  | Some p =>
      [description p; "Recommended Colors:"] ++ map name (recommended p) ++
      ["Colors to Avoid:"] ++ map name (avoid p)
  | None => []
  end.

Definition actions : list string := ["New Analysis"; "Print Results"].

(** A render either produces the page or throws; no component of the app
    catches a render error, so a throw replaces the whole page. *)
Inductive Rendered :=
| Page (lines : list string)
| TypeError (key : string).

Definition ResultsDisplay (r : AnalysisResult) : Rendered :=
  match faceShapeSection r with
  | Some fs => Page (app (header r) (app fs (app (colorSeasonSection r) actions)))
  | None => TypeError (face_shape r)
  end.

(** [AnalysisResultsEntry] once its effect has run: [hasWalkthroughData]
    needs a non-empty recommended palette and a non-empty photo URL. *)
Definition hasWalkthroughData (r : AnalysisResult) (userPhotoUrl : option string) : bool :=
  let hasColorData :=
    match palette r with
    | Some p => Nat.ltb 0 (length (recommended p))
    | None => false
    end in
  let hasPhoto :=
    match userPhotoUrl with
    | Some u => Nat.ltb 0 (String.length u)
    | None => false
    end in
  hasColorData && hasPhoto.

Inductive EntryView :=
| ShowResults (page : Rendered)
| ShowEntryScreen.

Definition AnalysisResultsEntry (showChoice : bool) (r : AnalysisResult)
    (userPhotoUrl : option string) : EntryView :=
  if negb showChoice || negb (hasWalkthroughData r userPhotoUrl) then
    ShowResults (ResultsDisplay r)
  else ShowEntryScreen.

End Results.

(* ------------------------------------------------------------------ *)
(** ** The [ComprehensiveAnalysisResult] record (lib/analysis-service, shape
    as used by the components) and the compatibility record assembled by
    [handleStartWalkthrough] (components/analysis-results.tsx) *)

Module Compat.

Record Lab := mkLab { L : Q; a : Q; b : Q }.

Record FaceMeasurements := mkMeasurements {
  faceWidth : Q;
  faceHeight : Q;
  jawWidth : Q;
  foreheadWidth : Q;
  cheekboneWidth : Q;
  faceRatio : Q;
  jawlineAngle : Q
}.

(** [faceShape] holds whatever string [results.face_shape as any] lets
    through. *)
Record FaceShapePart := mkFaceShapePart {
  faceShape : string;
  fs_confidence : Q;
  landmarks : list (Q * Q);
  measurements : FaceMeasurements
}.

Record ColorSeasonPart := mkColorSeasonPart {
  season : option string;
  undertone : string;
  cs_confidence : Q;
  dominantColors : list Lab;
  skinTone : Lab;
  contrast : Q;
  chroma : Q;
  lightness : Q;
  bestColors : list string;
  avoidColors : list string;
  cs_neutrals : list string;
  cs_metals : list string
}.

Record Colors := mkColors {
  primary : list string;
  secondary : list string;
  accent : list string;
  neutrals : list string;
  metals : list string;
  avoid : list string
}.

(** The remaining recommendation fields are all [[]] in the record below;
    they are kept as string lists. *)
Record Recommendations := mkRecommendations {
  hairstyles : list string;
  colors : Colors;
  accessories : list string;
  makeup : list (list string);
  styling : list (list string)
}.

Record ComprehensiveAnalysisResult := mkComprehensive {
  faceShapeR : FaceShapePart;
  colorSeasonR : ColorSeasonPart;
  recommendations : Recommendations;
  confidence : Q;
  processingTime : Q
}.

(** [results.palette?.<field>.map(f) || []] *)
Definition paletteMap (r : Results.AnalysisResult)
    (sel : Results.Palette -> list Results.ColorObject)
    (f : Results.ColorObject -> string) : list string :=
  match Results.palette r with
  | Some p => map f (sel p)
  | None => []
  end.

(** [recommended.slice(i, j)] *)
Definition slice {A} (i j : nat) (l : list A) : list A :=
  firstn (j - i) (skipn i l).

Definition paletteSlice (r : Results.AnalysisResult) (i j : nat) : list string :=
  match Results.palette r with
  | Some p => map Results.hex (slice i j (Results.recommended p))
  | None => []
  end.

(** The [comprehensiveResult] literal of [handleStartWalkthrough]. *)
Definition handleStartWalkthrough_record (results : Results.AnalysisResult)
    : ComprehensiveAnalysisResult :=
  {| faceShapeR :=
       {| faceShape := Results.face_shape results;
          fs_confidence := 8 # 10;
          landmarks := [];
          measurements :=
            {| faceWidth := 100; faceHeight := 120; jawWidth := 80;
               foreheadWidth := 90; cheekboneWidth := 95;
               faceRatio := 12 # 10; jawlineAngle := 45 |} |};
     colorSeasonR :=
       {| season := Results.color_season results;
          undertone := "neutral";
          cs_confidence := 8 # 10;
          dominantColors := [mkLab 50 0 0];
          skinTone := mkLab 50 0 0;
          contrast := 5 # 10;
          chroma := 20;
          lightness := 50;
          bestColors := paletteMap results Results.recommended Results.name;
          avoidColors := paletteMap results Results.avoid Results.name;
          cs_neutrals := ["Gray"; "Beige"; "Navy"];
          cs_metals := ["Silver"; "Gold"] |};
     recommendations :=
       {| hairstyles := [];
          colors :=
            {| primary := paletteSlice results 0 4;
               secondary := paletteSlice results 4 8;
               accent := paletteSlice results 8 12;
               neutrals := ["#808080"; "#F5F5DC"; "#000080"];
               metals := ["Silver"; "Gold"];
               avoid := paletteMap results Results.avoid Results.hex |};
          accessories := [];
          makeup := [[]; []; []; []; []];
          styling := [[]; []; []; []] |};
     confidence := 8 # 10;
     processingTime := 1000 |}.

End Compat.

(* ------------------------------------------------------------------ *)
(** ** Upload form: [handleSubmit], [runEnhancedAnalysis] and
    [runLegacyAnalysis] (components/analyze/upload-form.tsx) *)

Module Submit.

Record LegacyResult := mkLegacyResult {
  face_shape : string;
  color_season : string;
  note : option string
}.

Record AnalysisResponse := mkResponse {
  status : string;
  result : LegacyResult
}.

(** What [fetch(`${BACKEND_URL}/api/upload`)] answers: [response.ok],
    [response.statusText] and the parsed body. *)
Record BackendReply := mkReply {
  ok : bool;
  statusText : string;
  body : AnalysisResponse;
  error_detail : option string
}.

Record SubmitState := mkSubmit {
  isUploading : bool;
  error : option string;
  results : option AnalysisResponse;
  enhancedResults : option Compat.ComprehensiveAnalysisResult;
  useEnhancedAnalysis : bool
}.

(** The state after an [await], and the message of the [Error] thrown, if
    any. *)
Definition Outcome := (SubmitState * option string)%type.

Definition set_isUploading (v : bool) (s : SubmitState) : SubmitState :=
  mkSubmit v (error s) (results s) (enhancedResults s) (useEnhancedAnalysis s).

Definition set_error (v : option string) (s : SubmitState) : SubmitState :=
  mkSubmit (isUploading s) v (results s) (enhancedResults s) (useEnhancedAnalysis s).

Definition set_results (v : option AnalysisResponse) (s : SubmitState) : SubmitState :=
  mkSubmit (isUploading s) (error s) v (enhancedResults s) (useEnhancedAnalysis s).

Definition set_enhancedResults (v : option Compat.ComprehensiveAnalysisResult)
    (s : SubmitState) : SubmitState :=
  mkSubmit (isUploading s) (error s) (results s) v (useEnhancedAnalysis s).

Definition set_useEnhancedAnalysis (v : bool) (s : SubmitState) : SubmitState :=
  mkSubmit (isUploading s) (error s) (results s) (enhancedResults s) v.

(** [data.error_detail || 'Analysis failed'] *)
Definition errorDetail (d : option string) : string :=
  match d with
  | Some m => if String.eqb m "" then "Analysis failed" else m
  | None => "Analysis failed"
  end.

Definition runLegacyAnalysis (reply : BackendReply) (s : SubmitState) : Outcome :=
  if negb (ok reply) then (s, Some ("Upload failed: " ++ statusText reply))
  else if String.eqb (status (body reply)) "completed" then
    (set_results (Some (body reply)) (set_isUploading false s), None)
  else (s, Some (errorDetail (error_detail reply))).

(** [enhanced] is the value of
    [await analysisService.analyzeImage(imageElement, true)], [None] when
    it (or [createImageElement]) throws. *)
Definition runEnhancedAnalysis
    (enhanced : option Compat.ComprehensiveAnalysisResult)
    (reply : BackendReply) (s : SubmitState) : Outcome :=
  match enhanced with
  | Some r => (set_isUploading false (set_enhancedResults (Some r) s), None)
  | None => runLegacyAnalysis reply (set_useEnhancedAnalysis false s)
  end.

Definition handleSubmit (hasFile : bool)
    (enhanced : option Compat.ComprehensiveAnalysisResult)
    (reply : BackendReply) (s : SubmitState) : SubmitState :=
  if negb hasFile then s
  else
    let s1 := set_enhancedResults None (set_results None
                (set_error None (set_isUploading true s))) in
    let '(s2, thrown) :=
      if useEnhancedAnalysis s1 then runEnhancedAnalysis enhanced reply s1
      else runLegacyAnalysis reply s1 in
    match thrown with
    | None => s2
    | Some m => set_error (Some m) (set_isUploading false s2)
    end.

End Submit.

(* ------------------------------------------------------------------ *)
(** ** Landmark-to-shape classifier *)

Module FaceCore.

Inductive FaceShape :=
| heart | oblong | oval | round | square | triangle | diamond.

Definition allFaceShapes : list FaceShape :=
  [heart; oblong; oval; round; square; triangle; diamond].

(** The label as the lower-case string of the enum. *)
Definition faceShapeName (f : FaceShape) : string :=
  match f with
  | heart => "heart" | oblong => "oblong" | oval => "oval" | round => "round"
  | square => "square" | triangle => "triangle" | diamond => "diamond"
  end.

Inductive CoreError :=
| InvalidInput
| DegenerateGeometry
| InsufficientSamples.

Record FaceShapeResult := mkFaceShapeResult {
  faceShape : FaceShape;
  confidence : Q;
  measurements : Compat.FaceMeasurements
}.

(** Modelled from the spec: one entry of the ordered rule table of the
    classifier in [lib/analysis-service] (not in the sources): a predicate
    on the measurements, the label it proposes and its score. *)
Record Rule := mkRule {
  rule_pred : Compat.FaceMeasurements -> bool;
  rule_label : FaceShape;
  rule_score : Compat.FaceMeasurements -> Q
}.

Definition clamp01 (x : Q) : Q :=
  if Qle_bool x 0 then 0 else if Qle_bool 1 x then 1 else x.

(** Modelled from the spec: the margin between the best and the runner-up
    score, relative to the best score. *)
Definition normalizedMargin (best second : Q) : Q :=
  if Qle_bool best 0 then 0 else (best - second) / best.

(** Modelled from the spec: the best-scoring entry (the earlier one on
    equal scores) and the scores of all the others. *)
Fixpoint pickBest (l : list (FaceShape * Q)) : option (FaceShape * Q * list Q) :=
  match l with
  | [] => None
  | (lab, sc) :: rest =>
      match pickBest rest with
      | None => Some (lab, sc, [])
      | Some (lab', sc', others) =>
          if Qle_bool sc' sc then Some (lab, sc, sc' :: others)
          else Some (lab', sc', sc :: others)
      end
  end.

Definition maxScore (l : list Q) : option Q :=
  match l with
  | [] => None
  | x :: rest => Some (fold_left Qmax rest x)
  end.

Section Classifier.

Variable rules : list Rule.

(** Labels and scores of the rules whose predicate holds, in table order. *)
Definition scoredRules (m : Compat.FaceMeasurements) : list (FaceShape * Q) :=
  map (fun r => (rule_label r, rule_score r m))
      (filter (fun r => rule_pred r m) rules).

(** Modelled from the spec: [classifyFaceShape] of [lib/analysis-service]
    (not in the sources), steps 3 and 4 of the spec's algorithm on the
    Face Measurements of step 1: degenerate geometry is an error; the
    matching rules are scored; the confidence is the clamped normalized
    margin to the runner-up (0 when no other rule matched); a tie, or no
    matching rule, gives [oval] with confidence at most 1/2. *)
Definition classifyFaceShape (m : Compat.FaceMeasurements)
    : CoreError + FaceShapeResult :=
  if Qle_bool (Compat.faceWidth m) 0 || Qle_bool (Compat.faceHeight m) 0 then
    inl DegenerateGeometry
  else
    match pickBest (scoredRules m) with
    | None => inr (mkFaceShapeResult oval 0 m)
    | Some (lab, best, others) =>
        let second := match maxScore others with Some s => s | None => 0 end in
        let c := clamp01 (normalizedMargin best second) in
        match maxScore others with
        | Some s =>
            if Qeq_bool s best then
              inr (mkFaceShapeResult oval (Qmin (1 # 2) c) m)
            else inr (mkFaceShapeResult lab c m)
        | None => inr (mkFaceShapeResult lab c m)
        end
    end.

End Classifier.

(** Modelled from the spec: an instance of the rule table following the
    spec's list of rules, with thresholds of its own (the spec fixes
    none); used for concrete runs. *)
Definition near (x y : Q) : bool := Qle_bool (Qabs (x - y)) (1 # 10).

Definition exampleRules : list Rule :=
  [ mkRule (fun m => near (Compat.faceRatio m) 1 &&
                     near (Compat.jawWidth m / Compat.foreheadWidth m) 1 &&
                     near (Compat.cheekboneWidth m / Compat.foreheadWidth m) 1)
           round (fun m => 1 - Qabs (Compat.faceRatio m - 1));
    mkRule (fun m => Qle_bool (13 # 10) (Compat.faceRatio m))
           oblong (fun m => Compat.faceRatio m - 1);
    mkRule (fun m => Qle_bool (Compat.jawWidth m + 10) (Compat.foreheadWidth m))
           heart (fun m => (Compat.foreheadWidth m - Compat.jawWidth m) / Compat.foreheadWidth m);
    mkRule (fun m => near (Compat.jawWidth m / Compat.cheekboneWidth m) 1 &&
                     Qle_bool (Compat.foreheadWidth m + 5) (Compat.jawWidth m))
           triangle (fun m => (Compat.jawWidth m - Compat.foreheadWidth m) / Compat.jawWidth m);
    mkRule (fun m => Qle_bool (Compat.foreheadWidth m + 10) (Compat.cheekboneWidth m) &&
                     Qle_bool (Compat.jawWidth m + 10) (Compat.cheekboneWidth m))
           diamond (fun m => (Compat.cheekboneWidth m - Compat.jawWidth m) / Compat.cheekboneWidth m);
    mkRule (fun m => near (Compat.faceRatio m) 1 && Qle_bool (Compat.jawlineAngle m) 120)
           square (fun m => (180 - Compat.jawlineAngle m) / 180) ].

End FaceCore.

(* ------------------------------------------------------------------ *)
(** ** Colour statistics and season classifier *)

Module ColorCore.

Local Open Scope R_scope.

Import FaceCore (CoreError, InvalidInput, DegenerateGeometry, InsufficientSamples).

Record LabR := mkLabR { L : R; a : R; b : R }.

(** Modelled from the spec: the colour sample of [lib/analysis-service]
    (not in the sources), Lab triples per facial region. *)
Record ColorSample := mkColorSample {
  skin : list LabR;
  hair : list LabR;
  eye : list LabR
}.

Record ColorStats := mkStats {
  mean : LabR;
  variance : R
}.

Definition sumR (l : list R) : R := fold_right Rplus 0 l.

Definition sq (x : R) : R := x * x.

(** Modelled from the spec: the aggregate statistics of the colour-space
    utilities (not in the sources); mean colour and the mean squared
    distance to it; an empty set fails with [InsufficientSamples]. *)
Definition colorStats (samples : list LabR) : CoreError + ColorStats :=
  match samples with
  | [] => inl InsufficientSamples
  | _ :: _ =>
      let n := INR (length samples) in
      let m := mkLabR (sumR (map L samples) / n) (sumR (map a samples) / n)
                      (sumR (map b samples) / n) in
      inr (mkStats m
             (sumR (map (fun c => sq (L c - L m) + sq (a c - a m) + sq (b c - b m))
                        samples) / n))
  end.

Inductive Undertone := warm | cool | neutral.

Inductive Season :=
| LightSpring | TrueSpring | BrightSpring
| LightSummer | TrueSummer | SoftSummer
| SoftAutumn | TrueAutumn | DeepAutumn
| DeepWinter | TrueWinter | BrightWinter.

(** The point of the 4-dimensional descriptor space; the undertone is
    placed on an axis (cool -1, neutral 0, warm 1). *)
Record Descriptor := mkDescriptor {
  d_undertone : R;
  d_contrast : R;
  d_lightness : R;
  d_chroma : R
}.

Definition undertoneAxis (u : Undertone) : R :=
  match u with warm => 1 | neutral => 0 | cool => -1 end.

Definition dist (x y : Descriptor) : R :=
  sqrt (sq (d_undertone x - d_undertone y) + sq (d_contrast x - d_contrast y) +
        sq (d_lightness x - d_lightness y) + sq (d_chroma x - d_chroma y)).

Definition clamp01R (x : R) : R :=
  if Rle_dec x 0 then 0 else if Rle_dec 1 x then 1 else x.

(** The entry of least key (the earlier one on equal keys) and the keys of
    all the others. *)
Fixpoint pickNearest {A} (key : A -> R) (l : list A) : option (A * list R) :=
  match l with
  | [] => None
  | x :: rest =>
      match pickNearest key rest with
      | None => Some (x, [])
      | Some (y, others) =>
          if Rle_dec (key x) (key y) then Some (x, key y :: others)
          else Some (y, key x :: others)
      end
  end.

Definition minR (l : list R) : option R :=
  match l with
  | [] => None
  | x :: rest => Some (fold_left Rmin rest x)
  end.

Section SeasonClassifier.

Variable centroids : list (Season * Descriptor).

(** Modelled from the spec: step 5 of the season classifier of
    [lib/analysis-service] (not in the sources): the nearest reference
    centroid, with confidence
    [1 - (distance to nearest / distance to second-nearest)] clamped to
    [0,1] (1 when there is no second centroid). *)
Definition classifySeason (t : Descriptor) : option (Season * R) :=
  match pickNearest (fun sc => dist t (snd sc)) centroids with
  | None => None
  | Some ((s, c), others) =>
      let d1 := dist t c in
      match minR others with
      | Some d2 => Some (s, clamp01R (1 - d1 / d2))
      | None => Some (s, 1)
      end
  end.

End SeasonClassifier.

End ColorCore.

(* ------------------------------------------------------------------ *)
(** ** Colour pipeline and recommendation assembler *)

Module Pipeline.

Local Open Scope R_scope.

Import FaceCore (CoreError, InvalidInput, DegenerateGeometry, InsufficientSamples).
Import ColorCore.

Record ColorSeasonResult := mkColorSeasonResult {
  season : Season;
  undertone : Undertone;
  cs_confidence : R;
  dominantColors : list LabR;
  skinTone : LabR;
  contrast : R;
  chroma : R;
  lightness : R;
  lowConfidenceReason : option string
}.

(** The error monad of the core: errors are returned as values. *)
Definition bind {A B} (x : CoreError + A) (k : A -> CoreError + B) : CoreError + B :=
  match x with
  | inl e => inl e
  | inr v => k v
  end.

Notation "x <- c ;; k" := (bind c (fun x => k))
  (at level 61, c at next level, right associativity).

Section ColorPipeline.

Variable centroids : list (Season * Descriptor).
(** half-width of the neutral undertone band *)
Variable neutralBand : R.
(** skin variance above which the lighting is judged uneven *)
Variable varianceThreshold : R.

(** Modelled from the spec: step 2. *)
Definition undertoneOf (skinMean : LabR) : Undertone :=
  let bias := a skinMean + b skinMean in
  if Rle_dec (Rabs bias) neutralBand then neutral
  else if Rle_dec 0 bias then warm else cool.

(** Modelled from the spec: steps 1 to 6 of the season classifier of
    [lib/analysis-service] (not in the sources).  Every region must have
    samples; the palette lookup of step 6 is left to the assembler. *)
Definition classifyColorSeason (cs : ColorSample) : CoreError + ColorSeasonResult :=
  skinS <- colorStats (skin cs) ;;
  hairS <- colorStats (hair cs) ;;
  eyeS <- colorStats (eye cs) ;;
  let sm := mean skinS in
  let u := undertoneOf sm in
  let contrastV := Rabs (L sm - L (mean hairS)) / 100 in
  let chromaV := sqrt (sq (a sm) + sq (b sm)) in
  match classifySeason centroids
          (mkDescriptor (undertoneAxis u) contrastV (L sm) chromaV) with
  | None => inl InvalidInput
  | Some (s, c) =>
      let uneven := negb (if Rle_dec (variance skinS) varianceThreshold then true else false) in
      inr (mkColorSeasonResult s u
             (if uneven then Rmin c (1 / 2) else c)
             [sm; mean hairS; mean eyeS] sm contrastV chromaV (L sm)
             (if uneven then Some "uneven_lighting" else None))
  end.

End ColorPipeline.

(** Modelled from the spec: the Analysis Result of the Recommendation
    Assembler (not in the sources); the recommendation set is left out,
    it does not enter the confidence. *)
Record AnalysisResult := mkAnalysisResult {
  shapeResult : FaceCore.FaceShapeResult;
  seasonResult : ColorSeasonResult;
  overallConfidence : R;
  processingTime : R;
  schemaVersion : string
}.

Section Assembler.

Variables wShape wColor : R.

(** Modelled from the spec: overall confidence as the weighted average of
    the two sub-confidences; [processingTime] comes from the caller. *)
Definition assemble (fs : FaceCore.FaceShapeResult) (cs : ColorSeasonResult)
    (processingTime : R) : AnalysisResult :=
  mkAnalysisResult fs cs
    (wShape * Q2R (FaceCore.confidence fs) + wColor * cs_confidence cs)
    processingTime "1".

End Assembler.

Definition defaultWeight : R := 1 / 2.

(** Modelled from the spec: [analyze(landmarks, colorSample)] on the
    derived Face Measurements, with the default weights. *)
Definition analyze (rules : list FaceCore.Rule)
    (centroids : list (Season * Descriptor)) (neutralBand varianceThreshold : R)
    (m : Compat.FaceMeasurements) (cs : ColorSample) (processingTime : R)
    : CoreError + AnalysisResult :=
  fs <- FaceCore.classifyFaceShape rules m ;;
  csr <- classifyColorSeason centroids neutralBand varianceThreshold cs ;;
  inr (assemble defaultWeight defaultWeight fs csr processingTime).

End Pipeline.

(* ------------------------------------------------------------------ *)
(** ** Navigation controls and swipe gestures of the walkthrough
    (components/color-draping/navigation-controls.tsx,
    hooks/use-swipe-gesture.ts) *)

Module Nav.

Import Walkthrough.

(** The two callbacks [NavigationControls] can call. *)
Inductive Callback :=
| CbPrevious
| CbNext.

(** [handleKeyDown]: the callback a key calls, if any ([preventDefault]
    is called exactly when one is). *)
Definition handleKeyDown (canGoPrevious canGoNext : bool) (key : string)
    : option Callback :=
  if String.eqb key "ArrowLeft" then
    if canGoPrevious then Some CbPrevious else None
  else if (String.eqb key "ArrowRight" || String.eqb key " " ||
           String.eqb key "Enter")%bool then
    if canGoNext then Some CbNext else None
  else None.

(** The props [WalkthroughFlow] passes. *)
Definition canGoPrevious (s : State) : bool := Z.ltb 0 (currentIndex s).
Definition canGoNext : bool := true.

(** A callback as wired by [WalkthroughFlow]. *)
Definition callback (totalColors : Z) (c : Callback) (s : State) : State :=
  match c with
  | CbPrevious => handlePrevious s
  | CbNext => handleNext totalColors s
  end.

(** A [keydown] on the window while the walkthrough is shown. *)
Definition onKey (totalColors : Z) (key : string) (s : State) : State :=
  match handleKeyDown (canGoPrevious s) canGoNext key with
  | Some c => callback totalColors c s
  | None => s
  end.

(** The Back button: [disabled={!canGoPrevious}]. *)
Definition onBackButton (s : State) : State :=
  if canGoPrevious s then handlePrevious s else s.

(** Width of the progress bar, in percent:
    [((currentIndex + 1) / totalColors) * 100]. *)
Definition progressWidth (currentIndex totalColors : Z) : Q :=
  inject_Z (currentIndex + 1)%Z / inject_Z totalColors * 100.

(** Visible label and [aria-label] of the Next button. *)
Definition nextLabel (currentIndex totalColors : Z) : string :=
  if Z.eqb currentIndex (totalColors - 1) then "Summary" else "Next".

Definition nextAriaLabel (canGoNext : bool) : string :=
  if canGoNext then "Next color" else "Go to summary".

(** [useSwipeGesture]: touch coordinates. *)
Record Point := mkPoint {
  clientX : Q;
  clientY : Q
}.

Inductive Swipe :=
| SwipeLeft
| SwipeRight.

(** [handleTouchEnd]: the callback called for a touch that started at
    [start] and ended at [stop]. *)
Definition handleTouchEnd (threshold : Q) (start stop : Point) : option Swipe :=
  let deltaX := clientX stop - clientX start in
  let deltaY := clientY stop - clientY start in
  if (negb (Qle_bool (Qabs deltaX) (Qabs deltaY)) &&
      negb (Qle_bool (Qabs deltaX) threshold))%bool then
    if negb (Qle_bool deltaX 0) then Some SwipeRight else Some SwipeLeft
  else None.

(** [handleTouchMove]: whether [preventDefault] is called. *)
Definition handleTouchMove (preventScroll : bool) (start cur : Point) : bool :=
  let deltaX := Qabs (clientX cur - clientX start) in
  let deltaY := Qabs (clientY cur - clientY start) in
  (preventScroll && negb (Qle_bool deltaX deltaY) && negb (Qle_bool deltaX 10))%bool.

(** [WalkthroughFlow] registers [onSwipeLeft: handleNext],
    [onSwipeRight: handlePrevious], [threshold: 50]. *)
Definition onSwipe (totalColors : Z) (start stop : Point) (s : State) : State :=
  match handleTouchEnd 50 start stop with
  | Some SwipeLeft => handleNext totalColors s
  | Some SwipeRight => handlePrevious s
  | None => s
  end.

(** The same touch mirrored left to right. *)
Definition mirror (p : Point) : Point := mkPoint (- clientX p) (clientY p).

Definition opposite (w : Swipe) : Swipe :=
  match w with
  | SwipeLeft => SwipeRight
  | SwipeRight => SwipeLeft
  end.

End Nav.

(* ------------------------------------------------------------------ *)
(** ** Upload form: simulated progress, camera capture and removal
    (components/analyze/upload-form.tsx) *)

Module UploadExtra.

Import Upload.

Local Open Scope Z_scope.

(** One run of the 100ms interval:
    [newProgress = prevProgress + 5; newProgress >= 95 ? 95 : newProgress]. *)
Definition tick (prevProgress : Z) : Z :=
  let newProgress := prevProgress + 5 in
  if Z.leb 95 newProgress then 95 else newProgress.

Fixpoint ticks (k : nat) (p : Z) : Z :=
  match k with
  | O => p
  | S k' => ticks k' (tick p)
  end.

(** The effect on [isUploading]: when it is false the progress is reset
    to 0; when it is true the interval starts from the current value. *)
Definition progressEffect (isUploading : bool) (p : Z) : Z :=
  if isUploading then p else 0.

(** The form fields touched by the camera path. *)
Record CameraState := mkCamera {
  form : FormState;
  showCamera : bool
}.

(** What [fetch(imageSrc).then(res => res.blob())] gives: a blob of some
    size, or a rejection. *)
Inductive CaptureFetch :=
| BlobOf (blobSize : Z)
| FetchFailed.

(** [handleCameraCapture(imageSrc)]. *)
Definition handleCameraCapture (imageSrc : string) (r : CaptureFetch)
    (s : CameraState) : CameraState :=
  match r with
  | BlobOf n =>
      mkCamera (mkForm (Some (mkFile "image/jpeg" n)) (Some imageSrc) (error (form s)))
               false
  | FetchFailed =>
      mkCamera (mkForm (file (form s)) (preview (form s))
                       (Some "Failed to process camera image"))
               (showCamera s)
  end.

(** [handleRemove]: the form fields and the progress value. *)
Definition handleRemove (s : FormState) : FormState * Z :=
  (mkForm None None None, 0%Z).

End UploadExtra.

(* ------------------------------------------------------------------ *)
(** ** Polling page of an analysis (app/analyze/[id]/analysis-client.tsx) *)

Module Client.

Local Open Scope Z_scope.

(** The JSON body of [GET /api/results/${id}]. *)
Record ResultsData := mkData {
  d_status : string;
  d_results : option Results.AnalysisResult;
  d_detail : option string;
  d_error_detail : option string
}.

(** How one [fetch] ends: a response with [ok = false] and its
    [statusText], a parsed body, or a thrown value ([Some message] for an
    [Error], [None] for anything else). *)
Inductive FetchReply :=
| HttpError (statusText : string)
| Body (data : ResultsData)
| Thrown (message : option string).

Record ClientState := mkClient {
  status : string;
  results : option Results.AnalysisResult;
  error : option string;
  progress : Z;
  isLocalAnalysis : bool;
  analysisDetail : option string
}.

Definition initClient : ClientState := mkClient "pending" None None 0 false None.

Definition set_status (v : string) (s : ClientState) : ClientState :=
  mkClient v (results s) (error s) (progress s) (isLocalAnalysis s) (analysisDetail s).
Definition set_results (v : option Results.AnalysisResult) (s : ClientState) : ClientState :=
  mkClient (status s) v (error s) (progress s) (isLocalAnalysis s) (analysisDetail s).
Definition set_error (v : option string) (s : ClientState) : ClientState :=
  mkClient (status s) (results s) v (progress s) (isLocalAnalysis s) (analysisDetail s).
Definition set_progress (v : Z) (s : ClientState) : ClientState :=
  mkClient (status s) (results s) (error s) v (isLocalAnalysis s) (analysisDetail s).
Definition set_local (d : string) (s : ClientState) : ClientState :=
  mkClient (status s) (results s) (error s) (progress s) true (Some d).

(** [String.prototype.includes]. *)
Fixpoint includes (hay needle : string) : bool :=
  match hay with
  | EmptyString => String.prefix needle hay
  | String _ rest => String.prefix needle hay || includes rest needle
  end.

(** JavaScript truthiness of a string that may be absent. *)
Definition truthy (o : option string) : bool :=
  match o with
  | Some v => negb (String.eqb v "")
  | None => false
  end.

(** [fetchResults]; [pollCount] is the value captured by the effect.
    Returns the new state and the returned status. *)
Definition fetchResults (pollCount : Z) (reply : FetchReply) (s : ClientState)
    : ClientState * string :=
  match reply with
  | HttpError statusText =>
      (set_error (Some ("Failed to fetch results: " ++ statusText)) s, "error")
  | Thrown m =>
      (set_error (Some match m with
                       | Some msg => msg
                       | None => "Failed to fetch analysis results"
                       end) s, "error")
  | Body data =>
      let s1 := set_status (d_status data) s in
      let s2 :=
        match d_detail data with
        | Some d => if (truthy (Some d) && includes d "local analysis")%bool
                    then set_local d s1 else s1
        | None => s1
        end in
      let s3 :=
        match d_results data with
        | Some r =>
            if String.eqb (d_status data) "completed"
            then Some (set_progress 100 (set_results (Some r) s2)) else None
        | None => None
        end in
      let s4 :=
        match s3 with
        | Some s3 => s3
        | None =>
            if String.eqb (d_status data) "error" then
              set_progress 0 (set_error (Some (Submit.errorDetail (d_error_detail data))) s2)
            else if String.eqb (d_status data) "pending" then
              set_progress (Z.min 40 (10 + pollCount * 2)) s2
            else if String.eqb (d_status data) "processing" then
              set_progress (Z.min 90 (40 + pollCount * 5)) s2
            else s2
        end in
      (s4, d_status data)
  end.

Definition maxAttempts : Z := 30.

Inductive PollStep :=
| Stop
| Repoll
| TimedOut.

(** The decision of [pollResults] once [fetchResults] has answered. *)
Definition pollDecision (attempts : Z) (currentStatus : string) : PollStep :=
  if (String.eqb currentStatus "completed" || String.eqb currentStatus "error")%bool
  then Stop
  else if Z.ltb attempts maxAttempts then Repoll
  else TimedOut.

(** One chain of [pollResults] calls, with its own [attempts] counter,
    fed with the answers of its successive fetches.  Returns the state
    and the number of fetches made. *)
Fixpoint pollChain (pollCount attempts : Z) (replies : list FetchReply)
    (s : ClientState) : ClientState * nat :=
  match replies with
  | [] => (s, O)
  | r :: rest =>
      let attempts := attempts + 1 in
      let '(s', currentStatus) := fetchResults pollCount r s in
      match pollDecision attempts currentStatus with
      | Stop => (s', 1%nat)
      | Repoll =>
          let '(s'', n) := pollChain pollCount attempts rest s' in (s'', S n)
      | TimedOut => (set_error (Some "Analysis timed out. Please try again.") s', 1%nat)
      end
  end.

(** A fetch answered with a status that keeps the chain polling. *)
Definition stillRunning (r : FetchReply) : Prop :=
  exists data, r = Body data /\ d_status data <> "completed" /\ d_status data <> "error".

Inductive ClientView :=
| FailedView (message : string)
| ResultsView (page : list string) (localBanner : option string)
| ProgressView (heading : string) (value : Z) (message : string)
| RenderThrows (key : string).

Definition defaultLocalText : string :=
  "Your results were generated using our backup local analysis system due to connectivity issues with our advanced AI service.".

Definition render (s : ClientState) : ClientView :=
  if truthy (error s) then FailedView (Results.text (error s))
  else
    match results s with
    | Some r =>
        if String.eqb (status s) "completed" then
          (* the banner is a sibling of [ResultsDisplay]: a throw there
             unmounts both *)
          match Results.ResultsDisplay r with
          | Results.Page page =>
              ResultsView page
                (if isLocalAnalysis s then
                   Some (if truthy (analysisDetail s) then Results.text (analysisDetail s)
                         else defaultLocalText)
                 else None)
          | Results.TypeError k => RenderThrows k
          end
        else
          ProgressView
            (if String.eqb (status s) "processing" then "Processing Image"
             else "Analyzing Features")
            (progress s)
            (if String.eqb (status s) "pending" then "Preparing analysis. Please wait..."
             else "Analyzing image features. This may take up to a minute...")
    | None =>
        ProgressView
          (if String.eqb (status s) "processing" then "Processing Image"
           else "Analyzing Features")
          (progress s)
          (if String.eqb (status s) "pending" then "Preparing analysis. Please wait..."
           else "Analyzing image features. This may take up to a minute...")
    end.

End Client.

(* ------------------------------------------------------------------ *)
(** ** Hand-off to the walkthrough page through [sessionStorage]
    (AnalysisResultsEntry.handleStartWalkthrough,
    app/analyze/[id]/walkthrough/page.tsx) *)

Module Handoff.

(** [sessionStorage], newest entry first: [setItem] shadows older
    entries of the same key. *)
Definition Storage := list (string * string).

Definition getItem (k : string) (st : Storage) : option string :=
  match find (fun kv => String.eqb (fst kv) k) st with
  | Some (_, v) => Some v
  | None => None
  end.

Definition setItem (k v : string) (st : Storage) : Storage := (k, v) :: st.

Section Json.

(** [JSON.stringify] of the compatibility record and of the draping data
    built by [transformBasicAnalysisToColorDrapingData] (not in the
    sources), and [JSON.parse] read as a [ComprehensiveAnalysisResult]
    ([None] when it throws). *)
Variable stringify : Compat.ComprehensiveAnalysisResult -> string.
Variable drapingJSON : Results.AnalysisResult -> string -> string -> string.
Variable parse : string -> option Compat.ComprehensiveAnalysisResult.

(** [handleStartWalkthrough]: the storage afterwards and the route pushed. *)
Definition handleStartWalkthrough (results : Results.AnalysisResult)
    (analysisId : string) (userPhotoUrl : option string) (st : Storage)
    : Storage * string :=
  let st' :=
    match userPhotoUrl with
    | Some u =>
        if String.eqb u "" then st
        else
          setItem ("original_id_" ++ analysisId) analysisId
            (setItem ("photo_" ++ analysisId) u
              (setItem ("draping_" ++ analysisId) (drapingJSON results u analysisId)
                (setItem ("analysis_" ++ analysisId)
                   (stringify (Compat.handleStartWalkthrough_record results)) st)))
    | None => st
    end in
  (st', "/analyze/" ++ analysisId ++ "/walkthrough").

Record PageState := mkPage {
  analysisResult : option Compat.ComprehensiveAnalysisResult;
  userPhotoUrl : string;
  loading : bool;
  pageError : option string;
  originalAnalysisId : option string
}.

Definition initPage : PageState := mkPage None "" true None None.

Definition notFound : PageState :=
  mkPage None "" false (Some "Analysis data not found. Please start a new analysis.") None.

(** [loadAnalysisData] run from the initial state. *)
Definition loadAnalysisData (id : string) (st : Storage) : PageState :=
  match getItem ("analysis_" ++ id) st, getItem ("photo_" ++ id) st with
  | Some storedResult, Some storedPhoto =>
      if (String.eqb storedResult "" || String.eqb storedPhoto "")%bool then notFound
      else
        match parse storedResult with
        | Some r => mkPage (Some r) storedPhoto false None
                      (getItem ("original_id_" ++ id) st)
        | None => notFound
        end
  | _, _ => notFound
  end.

(** The page's effect: [if (params.id) loadAnalysisData()]. *)
Definition walkthroughPage (id : string) (st : Storage) : PageState :=
  if String.eqb id "" then initPage else loadAnalysisData id st.

End Json.

Inductive PageView :=
| LoadingView
| NotFoundView (message : string)
| WalkthroughView (r : Compat.ComprehensiveAnalysisResult) (photo : string) (id : string).

Definition renderPage (id : string) (p : PageState) : PageView :=
  if loading p then LoadingView
  else
    match pageError p, analysisResult p with
    | None, Some r => WalkthroughView r (userPhotoUrl p) id
    | Some e, _ => NotFoundView e
    | None, None => NotFoundView "We couldn't find your analysis data."
    end.

End Handoff.

(* ================================================================== *)
(** * Properties *)

(* ------------------------------------------------------------------ *)
(** ** Walkthrough flow *)

Module WalkthroughFacts.

Import Walkthrough.

Lemma fireTimer_no_pending (s : State) :
  pending s = [] -> fireTimer s = s.
Proof. intros H. unfold fireTimer. rewrite H. reflexivity. Qed.

(** One user action whose transition completes before the next keeps the
    index in range and leaves no timeout pending. *)
Lemma atomicStep_in_range (totalColors : Z) (s : State) (e : Event) :
  (1 <= totalColors)%Z -> inRange totalColors s -> pending s = [] ->
  inRange totalColors (atomicStep totalColors s e) /\
  pending (atomicStep totalColors s e) = [].
Proof.
  intros Hn [Hlo Hhi] Hp. unfold atomicStep, step, inRange.
  destruct e.
  - unfold handleNext. destruct (Z.eqb_spec (currentIndex s) (totalColors - 1)).
    + rewrite fireTimer_no_pending by (simpl; exact Hp). simpl. split; [lia | exact Hp].
    + unfold fireTimer. simpl. rewrite Hp. simpl. split; [lia | reflexivity].
  - unfold handlePrevious. destruct (Z.eqb_spec (currentIndex s) 0).
    + rewrite fireTimer_no_pending by (simpl; exact Hp). simpl. split; [lia | exact Hp].
    + unfold fireTimer. simpl. rewrite Hp. simpl. split; [lia | reflexivity].
  - rewrite (fireTimer_no_pending s Hp), (fireTimer_no_pending s Hp).
    split; [lia | exact Hp].
Qed.

(** Under actions that each complete their transition, the index stays in
    [0, totalColors - 1]. *)
Lemma runAtomic_in_range (totalColors : Z) (es : list Event) (s : State) :
  (1 <= totalColors)%Z -> inRange totalColors s -> pending s = [] ->
  inRange totalColors (runAtomic totalColors s es) /\
  pending (runAtomic totalColors s es) = [].
Proof.
  revert s. induction es as [|e es IH]; intros s Hn Hr Hp.
  - split; assumption.
  - unfold runAtomic. simpl.
    destruct (atomicStep_in_range totalColors s e Hn Hr Hp) as [Hr' Hp'].
    apply IH; assumption.
Qed.

(** [Next] on the last colour calls [onComplete] and leaves the index. *)
Lemma handleNext_last (totalColors : Z) (s : State) :
  currentIndex s = (totalColors - 1)%Z ->
  currentIndex (handleNext totalColors s) = currentIndex s /\
  pending (handleNext totalColors s) = pending s /\
  effects (handleNext totalColors s) = (effects s ++ [OnComplete])%list.
Proof.
  intros H. unfold handleNext. rewrite H, Z.eqb_refl. simpl. auto.
Qed.

(** [Previous] on the first colour calls [onBack] and leaves the index. *)
Lemma handlePrevious_first (s : State) :
  currentIndex s = 0%Z ->
  currentIndex (handlePrevious s) = currentIndex s /\
  pending (handlePrevious s) = pending s /\
  effects (handlePrevious s) = (effects s ++ [OnBack])%list.
Proof.
  intros H. unfold handlePrevious. rewrite H. simpl. auto.
Qed.

(** C10 (code_bug): with two colours, pressing Next twice within the 200ms
    transition (both presses read index 0 of the last render, so both
    schedule [prev => prev + 1]) leaves [currentIndex] at 2, outside
    [0, 1]: [drapingData.colors[2]] is [undefined].  The guard
    [currentIndex === totalColors - 1] does not see the pending update. *)
Theorem walkthrough_double_next_escapes :
  let s := run 2 init [Next; Next; TimerFires; TimerFires] in
  currentIndex s = 2%Z /\ effects s = [] /\ ~ inRange 2 s.
Proof.
  simpl. split; [reflexivity | split; [reflexivity |]].
  unfold inRange. simpl. lia.
Qed.

End WalkthroughFacts.

(* ------------------------------------------------------------------ *)
(** ** Upload validation *)

Module UploadFacts.

Import Upload.

(** C9: a dropped file is taken (file and preview set, pipeline open) only
    if its type starts with ["image/"] and its size is at most 5MB;
    otherwise the matching error message is set and file and preview are
    left as they were. *)
Theorem onDrop_validates (createObjectURL : File -> string) (f : File)
    (rest : list File) (s : FormState) :
  exists s', onDrop createObjectURL (f :: rest) s = Some s' /\
    (validUpload f = true ->
       file s' = Some f /\ preview s' = Some (createObjectURL f) /\ error s' = None) /\
    (String.prefix "image/" (type f) = false ->
       file s' = file s /\ preview s' = preview s /\
       error s' = Some "Please upload an image file") /\
    (String.prefix "image/" (type f) = true -> (maxSize < size f)%Z ->
       file s' = file s /\ preview s' = preview s /\
       error s' = Some "File size should be less than 5MB") /\
    (file s = None -> entersPipeline s' = validUpload f).
Proof.
  unfold onDrop, validUpload. simpl.
  destruct (String.prefix "image/" (type f)) eqn:Ht; simpl.
  - destruct (Z.ltb_spec maxSize (size f)) as [Hs | Hs].
    + eexists; split; [reflexivity|]. simpl.
      assert (Hb : (size f <=? maxSize)%Z = false) by (apply Z.leb_gt; lia).
      rewrite Hb.
      repeat split; try discriminate; intros Hf; try discriminate.
      unfold entersPipeline. simpl. rewrite Hf. reflexivity.
    + eexists; split; [reflexivity|]. simpl.
      assert (Hb : (size f <=? maxSize)%Z = true) by (apply Z.leb_le; lia).
      rewrite Hb.
      repeat split; intros; try reflexivity; try discriminate; lia.
  - eexists; split; [reflexivity|]. simpl.
    repeat split; try discriminate.
    intros Hf. unfold entersPipeline. simpl. rewrite Hf. reflexivity.
Qed.

End UploadFacts.

(* ------------------------------------------------------------------ *)
(** ** Face-shape classifier *)

Module FaceFacts.

Import FaceCore.

Lemma clamp01_range (x : Q) : 0 <= clamp01 x <= 1.
Proof.
  unfold clamp01.
  destruct (Qle_bool x 0) eqn:E0.
  - split; [apply Qle_refl | unfold Qle; simpl; lia].
  - destruct (Qle_bool 1 x) eqn:E1.
    + split; [unfold Qle; simpl; lia | apply Qle_refl].
    + assert (H0 : ~ x <= 0) by (rewrite <- Qle_bool_iff; congruence).
      assert (H1 : ~ 1 <= x) by (rewrite <- Qle_bool_iff; congruence).
      apply Qnot_le_lt in H0. apply Qnot_le_lt in H1.
      split; apply Qlt_le_weak; assumption.
Qed.

Lemma tie_confidence_range (c : Q) :
  0 <= c <= 1 -> 0 <= Qmin (1 # 2) c /\ Qmin (1 # 2) c <= 1 # 2.
Proof.
  intros [H0 H1]. split.
  - apply Q.min_glb; [unfold Qle; simpl; lia | exact H0].
  - apply Q.le_min_l.
Qed.

Lemma pickBest_spec (l : list (FaceShape * Q)) lab best others :
  pickBest l = Some (lab, best, others) ->
  In (lab, best) l /\ Permutation (map snd l) (best :: others) /\
  Forall (fun x => x <= best) others.
Proof.
  revert lab best others.
  induction l as [|[lab0 sc] rest IH]; intros lab best others H; simpl in H.
  - discriminate.
  - destruct (pickBest rest) as [[[lab' sc'] others']|] eqn:Hr.
    + destruct (IH lab' sc' others' eq_refl) as [Hin [Hperm Hall]].
      destruct (Qle_bool sc' sc) eqn:Hle; injection H as <- <- <-.
      * apply Qle_bool_iff in Hle.
        split; [left; reflexivity|]. split.
        -- simpl. apply perm_skip. exact Hperm.
        -- constructor; [exact Hle|].
           eapply Forall_impl; [|exact Hall]. intros x Hx. apply Qle_trans with sc'; assumption.
      * assert (Hlt : sc < sc').
        { apply Qnot_le_lt. rewrite <- Qle_bool_iff. congruence. }
        split; [right; exact Hin|]. split.
        -- simpl. eapply perm_trans; [apply perm_skip; exact Hperm|]. apply perm_swap.
        -- constructor; [apply Qlt_le_weak; exact Hlt | exact Hall].
    + injection H as <- <- <-.
      destruct rest as [|y rest']; [|simpl in Hr; destruct y; destruct (pickBest rest');
        [destruct p as [[? ?] ?]; destruct (Qle_bool _ _); discriminate | discriminate]].
      split; [left; reflexivity|]. split; [apply Permutation_refl | constructor].
Qed.

Lemma fold_Qmax_spec (l : list Q) (acc : Q) :
  In (fold_left Qmax l acc) (acc :: l) /\ acc <= fold_left Qmax l acc /\
  Forall (fun x => x <= fold_left Qmax l acc) l.
Proof.
  revert acc. induction l as [|y l IH]; intros acc; simpl.
  - split; [left; reflexivity | split; [apply Qle_refl | constructor]].
  - destruct (IH (Qmax acc y)) as [Hin [Hacc Hall]].
    split; [|split].
    + unfold Qmax, GenericMinMax.gmax in Hin |- *.
      destruct (Qcompare acc y); simpl in Hin; tauto.
    + eapply Qle_trans; [apply Q.le_max_l | exact Hacc].
    + constructor; [|exact Hall].
      eapply Qle_trans; [apply Q.le_max_r | exact Hacc].
Qed.

Lemma maxScore_spec (l : list Q) (s : Q) :
  maxScore l = Some s -> In s l /\ Forall (fun x => x <= s) l.
Proof.
  destruct l as [|x rest]; simpl; intros H; [discriminate|].
  injection H as <-. destruct (fold_Qmax_spec rest x) as [Hin [Hx Hall]].
  split; [exact Hin | constructor; assumption].
Qed.

Lemma allFaceShapes_complete (f : FaceShape) : In f allFaceShapes.
Proof. destruct f; simpl; tauto. Qed.

Lemma degenerate_guard (m : Compat.FaceMeasurements) :
  0 < Compat.faceWidth m -> 0 < Compat.faceHeight m ->
  (Qle_bool (Compat.faceWidth m) 0 || Qle_bool (Compat.faceHeight m) 0)%bool = false.
Proof.
  intros Hw Hh.
  destruct (Qle_bool (Compat.faceWidth m) 0) eqn:Ew.
  - apply Qle_bool_iff in Ew. exfalso. exact (Qlt_not_le _ _ Hw Ew).
  - destruct (Qle_bool (Compat.faceHeight m) 0) eqn:Eh; [|reflexivity].
    apply Qle_bool_iff in Eh. exfalso. exact (Qlt_not_le _ _ Hh Eh).
Qed.

(** C1: on measurements with positive width and height the classifier
    returns a label of the fixed enumeration and a confidence in [0,1]. *)
Theorem classifyFaceShape_label_and_confidence (rules : list Rule)
    (m : Compat.FaceMeasurements) :
  0 < Compat.faceWidth m -> 0 < Compat.faceHeight m ->
  exists res, classifyFaceShape rules m = inr res /\
    In (faceShape res) allFaceShapes /\ 0 <= confidence res <= 1.
Proof.
  intros Hw Hh. unfold classifyFaceShape. rewrite (degenerate_guard m Hw Hh).
  destruct (pickBest (scoredRules rules m)) as [[[lab best] others]|].
  - destruct (maxScore others) as [s|].
    + destruct (Qeq_bool s best).
      * eexists; split; [reflexivity|]. split; [apply allFaceShapes_complete|].
        simpl. destruct (tie_confidence_range _ (clamp01_range (normalizedMargin best s)))
          as [H0 H1].
        split; [exact H0 | apply Qle_trans with (1 # 2); [exact H1 | unfold Qle; simpl; lia]].
      * eexists; split; [reflexivity|]. split; [apply allFaceShapes_complete|].
        apply clamp01_range.
    + eexists; split; [reflexivity|]. split; [apply allFaceShapes_complete|].
      apply clamp01_range.
  - eexists; split; [reflexivity|]. split; [apply allFaceShapes_complete|].
    simpl. split; [apply Qle_refl | unfold Qle; simpl; lia].
Qed.

(** C3: a zero or negative face width or height fails with
    [DegenerateGeometry]: the classifier returns no label, and the whole
    analysis returns the same error, whatever the colour sample. *)
Theorem classifyFaceShape_degenerate (rules : list Rule)
    (m : Compat.FaceMeasurements) :
  Compat.faceWidth m <= 0 \/ Compat.faceHeight m <= 0 ->
  classifyFaceShape rules m = inl DegenerateGeometry /\
  forall centroids neutralBand varianceThreshold cs processingTime,
    Pipeline.analyze rules centroids neutralBand varianceThreshold m cs processingTime
    = inl DegenerateGeometry.
Proof.
  intros H.
  assert (Hg : (Qle_bool (Compat.faceWidth m) 0 || Qle_bool (Compat.faceHeight m) 0)%bool
               = true).
  { apply orb_true_iff. destruct H as [H | H]; [left | right]; apply Qle_bool_iff; exact H. }
  assert (Hc : classifyFaceShape rules m = inl DegenerateGeometry).
  { unfold classifyFaceShape. rewrite Hg. reflexivity. }
  split; [exact Hc|]. intros. unfold Pipeline.analyze. rewrite Hc. reflexivity.
Qed.

End FaceFacts.

(* ------------------------------------------------------------------ *)
(** ** Confidences of the classifier and of the compatibility record *)

Module ConfidenceFacts.

Import FaceCore FaceFacts.

(** The compatibility record's face-shape part for a backend result. *)
Definition compatShape (r : Results.AnalysisResult) : Compat.FaceShapePart :=
  Compat.faceShapeR (Compat.handleStartWalkthrough_record r).

Definition placeholderMeasurements : Compat.FaceMeasurements :=
  Compat.mkMeasurements 100 120 80 90 95 (12 # 10) 45.

(** Two backend results with different face shapes, each with a
    non-empty recommended palette, so that with a photo the entry screen
    offering the walkthrough is shown. *)
Definition roundResult : Results.AnalysisResult :=
  Results.mkResult "round" (Some "Autumn") (Some 1%Z)
    (Some (Results.mkPalette "Warm" [Results.mkColor "Rust" "#B7410E"] [])) None.

Definition oblongResult : Results.AnalysisResult :=
  Results.mkResult "oblong" (Some "Winter") (Some 1%Z)
    (Some (Results.mkPalette "Cool" [Results.mkColor "Navy" "#000080"] [])) None.

(** C2 (counterexample): both results reach the entry screen, from which
    [handleStartWalkthrough] builds its record. The record's face-shape
    confidence is the constant 0.8 for every backend result, next to the
    same placeholder measurements; for the two results above the labels
    differ while the measurements are equal, so for no rule table are both
    records classifier results on their measurements. *)
Lemma compat_confidence_not_margin :
  Results.AnalysisResultsEntry true roundResult (Some "blob:photo") = Results.ShowEntryScreen /\
  Results.AnalysisResultsEntry true oblongResult (Some "blob:photo") = Results.ShowEntryScreen /\
  (forall r : Results.AnalysisResult,
     Compat.fs_confidence (compatShape r) = 8 # 10 /\
     Compat.measurements (compatShape r) = placeholderMeasurements) /\
  Compat.faceShape (compatShape roundResult) <> Compat.faceShape (compatShape oblongResult) /\
  (forall rules res1 res2,
     classifyFaceShape rules (Compat.measurements (compatShape roundResult)) = inr res1 ->
     classifyFaceShape rules (Compat.measurements (compatShape oblongResult)) = inr res2 ->
     ~ (faceShapeName (faceShape res1) = Compat.faceShape (compatShape roundResult) /\
        confidence res1 = Compat.fs_confidence (compatShape roundResult) /\
        faceShapeName (faceShape res2) = Compat.faceShape (compatShape oblongResult) /\
        confidence res2 = Compat.fs_confidence (compatShape oblongResult))).
Proof.
  split; [reflexivity|]. split; [reflexivity|].
  split; [intros r; split; reflexivity|]. split; [discriminate|].
  intros rules res1 res2 H1 H2 [E1 [_ [E2 _]]].
  change (Compat.measurements (compatShape oblongResult))
    with (Compat.measurements (compatShape roundResult)) in H2.
  rewrite H1 in H2. injection H2 as <-.
  rewrite E1 in E2. discriminate.
Qed.

(** C2 (amended): the classifier's confidence is the clamped normalized
    margin between the best matching rule's score and the runner-up's
    (the maximum of the other matching scores; 0 without one), a tie
    giving [oval] with confidence at most 1/2 and no matching rule [oval]
    with confidence 0; the compatibility record of
    [handleStartWalkthrough] carries the constant confidence 0.8 and the
    placeholder measurements for every backend result. *)
Theorem confidence_margin_and_compat_constant :
  (forall rules m res,
     classifyFaceShape rules m = inr res ->
     (scoredRules rules m = [] /\ faceShape res = oval /\ confidence res = 0) \/
     exists lab best others,
       In (lab, best) (scoredRules rules m) /\
       Permutation (map snd (scoredRules rules m)) (best :: others) /\
       Forall (fun x => x <= best) others /\
       ((others = [] /\ faceShape res = lab /\
         confidence res = clamp01 (normalizedMargin best 0)) \/
        (exists second,
           In second others /\ Forall (fun x => x <= second) others /\
           ((second == best /\ faceShape res = oval /\ confidence res <= 1 # 2) \/
            (~ second == best /\ faceShape res = lab /\
             confidence res = clamp01 (normalizedMargin best second)))))) /\
  (forall r : Results.AnalysisResult,
     Compat.fs_confidence (compatShape r) = 8 # 10 /\
     Compat.measurements (compatShape r) = placeholderMeasurements).
Proof.
  split; [|intros r; split; reflexivity].
  intros rules m res H. unfold classifyFaceShape in H.
  destruct (Qle_bool (Compat.faceWidth m) 0 || Qle_bool (Compat.faceHeight m) 0)%bool;
    [discriminate|].
  destruct (pickBest (scoredRules rules m)) as [[[lab best] others]|] eqn:Hp.
  - right. destruct (pickBest_spec _ _ _ _ Hp) as [Hin [Hperm Hall]].
    exists lab, best, others. split; [exact Hin|]. split; [exact Hperm|].
    split; [exact Hall|].
    destruct (maxScore others) as [s|] eqn:Hm.
    + right. destruct (maxScore_spec _ _ Hm) as [Hsin Hsall].
      exists s. split; [exact Hsin|]. split; [exact Hsall|].
      destruct (Qeq_bool s best) eqn:He; injection H as <-.
      * left. apply Qeq_bool_iff in He. split; [exact He|]. split; [reflexivity|].
        apply tie_confidence_range, clamp01_range.
      * right. split; [rewrite <- Qeq_bool_iff; congruence|]. auto.
    + left. destruct others as [|x rest]; [|discriminate].
      injection H as <-. auto.
  - left. injection H as <-.
    destruct (scoredRules rules m) as [|[l0 s0] rest] eqn:Hs; [auto|].
    simpl in Hp. destruct (pickBest rest) as [[[? ?] ?]|];
      [destruct (Qle_bool _ _)|]; discriminate.
Qed.

(* ------------------------------------------------------------------ *)
(** Overall confidence *)

(** C7: the assembled overall confidence is the 0.5/0.5 average of the
    face-shape and colour-season confidences; in the compatibility record
    of [handleStartWalkthrough] the overall confidence 0.8 equals the
    0.5/0.5 average of its two sub-confidences 0.8, for every input. *)
Theorem overall_confidence_weighted_average :
  (forall fs cs processingTime,
     Pipeline.overallConfidence
       (Pipeline.assemble Pipeline.defaultWeight Pipeline.defaultWeight fs cs processingTime)
     = (1 / 2 * Q2R (confidence fs) + 1 / 2 * Pipeline.cs_confidence cs)%R) /\
  (forall r : Results.AnalysisResult,
     let rec := Compat.handleStartWalkthrough_record r in
     Compat.confidence rec ==
       (1 # 2) * Compat.fs_confidence (Compat.faceShapeR rec) +
       (1 # 2) * Compat.cs_confidence (Compat.colorSeasonR rec)).
Proof.
  split.
  - intros. reflexivity.
  - intros r. simpl. reflexivity.
Qed.

End ConfidenceFacts.

(* ------------------------------------------------------------------ *)
(** ** Results display with a partial result *)

Module ResultsFacts.

Import Results.

(** No name inherited from [Object.prototype] is an own key of the
    recommendations literal. *)
Lemma prototypeKey_not_own (k : string) :
  isPrototypeKey k = true -> ownRecommendations k = None.
Proof.
  unfold isPrototypeKey. intros H. apply existsb_exists in H as [x [Hin Hx]].
  apply String.eqb_eq in Hx. subst x.
  repeat (destruct Hin as [<- | Hin]; [reflexivity|]). destruct Hin.
Qed.

(** The face-shape section renders when the backend sent its
    recommendations, or when the face shape is not an inherited name. *)
Lemma faceShapeSection_renders (r : AnalysisResult) :
  face_shape_recommendations r <> None \/ isPrototypeKey (face_shape r) = false ->
  exists fs, faceShapeSection r = Some fs.
Proof.
  intros H. unfold faceShapeSection.
  destruct (face_shape_recommendations r) as [fsr|]; [eexists; reflexivity|].
  destruct H as [H | H]; [congruence|].
  unfold getFaceShapeRecommendations. rewrite H.
  destruct (ownRecommendations (face_shape r)); eexists; reflexivity.
Qed.

(** Without recommendations from the backend, an inherited name as face
    shape makes the page throw. *)
Lemma resultsDisplay_throws (r : AnalysisResult) :
  face_shape_recommendations r = None -> isPrototypeKey (face_shape r) = true ->
  ResultsDisplay r = TypeError (face_shape r).
Proof.
  intros Hf Hk. unfold ResultsDisplay, faceShapeSection, getFaceShapeRecommendations.
  rewrite Hf, (prototypeKey_not_own _ Hk), Hk. reflexivity.
Qed.

(** A backend result with a face shape but neither colour season nor
    palette. *)
Definition shapeOnly : AnalysisResult := mkResult "Oval" None None None None.

(** C5 (counterexample): for that result, with a photo, the entry shows
    the full results page; its colour section is rendered (an empty season
    name in the heading and in the sentence) and nothing on the page marks
    the colour portion as unavailable. *)
Lemma shapeOnly_color_section_rendered :
  AnalysisResultsEntry true shapeOnly (Some "blob:photo") =
  ShowResults (Page
    ["Analysis Complete";
     "Face Shape: Oval";
     "Your face has characteristics of a oval shape.";
     "Basic Recommendations for Oval faces:";
     "Most hairstyles and accessories work well with your balanced proportions";
     "Experiment with different styles as your face shape is versatile";
     "Your face shape is considered ideal for most styles";
     "Color Season: ";
     "Your color analysis indicates you're a  type.";
     "New Analysis";
     "Print Results"]).
Proof. reflexivity. Qed.

(** C5 (amended): without a palette the entry always shows
    [ResultsDisplay]. When the face-shape section renders (the backend
    sent face-shape recommendations, or the face shape is not a name
    inherited from [Object.prototype]), the page is the face-shape
    section, then the colour-season heading and sentence with the season
    text (empty when the field is missing), and only the palette block is
    left out; otherwise the page throws. The core's errors are values: the
    face classifier only returns [DegenerateGeometry], the season
    classifier [InsufficientSamples] or [InvalidInput], and [analyze]
    returns either the assembled result or the error value of the
    classifier that failed. *)
Theorem results_without_palette (showChoice : bool) (r : AnalysisResult)
    (userPhotoUrl : option string) :
  palette r = None ->
  AnalysisResultsEntry showChoice r userPhotoUrl = ShowResults (ResultsDisplay r) /\
  (face_shape_recommendations r <> None \/ isPrototypeKey (face_shape r) = false ->
   exists fs,
     faceShapeSection r = Some fs /\
     ResultsDisplay r =
       Page (app (header r)
               (app fs
                  (app ["Color Season: " ++ text (color_season r);
                        "Your color analysis indicates you're a " ++
                          text (color_season r) ++ " type."]
                     actions)))) /\
  (face_shape_recommendations r = None -> isPrototypeKey (face_shape r) = true ->
   ResultsDisplay r = TypeError (face_shape r)) /\
  (forall rules centroids neutralBand varianceThreshold m cs processingTime,
     (forall e, FaceCore.classifyFaceShape rules m = inl e ->
                e = FaceCore.DegenerateGeometry) /\
     (forall e, Pipeline.classifyColorSeason centroids neutralBand varianceThreshold cs = inl e ->
                e = FaceCore.InsufficientSamples \/ e = FaceCore.InvalidInput) /\
     ((exists e,
         Pipeline.analyze rules centroids neutralBand varianceThreshold m cs processingTime
           = inl e /\
         (FaceCore.classifyFaceShape rules m = inl e \/
          exists fs, FaceCore.classifyFaceShape rules m = inr fs /\
            Pipeline.classifyColorSeason centroids neutralBand varianceThreshold cs = inl e)) \/
      (exists fs csr,
         FaceCore.classifyFaceShape rules m = inr fs /\
         Pipeline.classifyColorSeason centroids neutralBand varianceThreshold cs = inr csr /\
         Pipeline.analyze rules centroids neutralBand varianceThreshold m cs processingTime
           = inr (Pipeline.assemble Pipeline.defaultWeight Pipeline.defaultWeight
                    fs csr processingTime)))).
Proof.
  intros Hp. split; [|split; [|split]].
  - unfold AnalysisResultsEntry, hasWalkthroughData. rewrite Hp.
    rewrite orb_true_r. reflexivity.
  - intros H. destruct (faceShapeSection_renders r H) as [fs Hfs].
    exists fs. split; [exact Hfs|].
    unfold ResultsDisplay, colorSeasonSection. rewrite Hfs, Hp. reflexivity.
  - exact (resultsDisplay_throws r).
  - intros rules centroids nb vt m cs pt. split; [|split].
    + intros e. unfold FaceCore.classifyFaceShape.
      destruct (_ || _)%bool; [congruence|].
      destruct (FaceCore.pickBest _) as [[[? ?] ?]|];
        [destruct (FaceCore.maxScore _) as [?|]; [destruct (Qeq_bool _ _)|]|];
        discriminate.
    + intros e. unfold Pipeline.classifyColorSeason, Pipeline.bind.
      destruct (ColorCore.colorStats (ColorCore.skin cs)) as [e1|s1] eqn:E1.
      { destruct (ColorCore.skin cs); [|discriminate E1].
        injection E1 as <-. intros H. injection H as <-. auto. }
      destruct (ColorCore.colorStats (ColorCore.hair cs)) as [e2|s2] eqn:E2.
      { destruct (ColorCore.hair cs); [|discriminate E2].
        injection E2 as <-. intros H. injection H as <-. auto. }
      destruct (ColorCore.colorStats (ColorCore.eye cs)) as [e3|s3] eqn:E3.
      { destruct (ColorCore.eye cs); [|discriminate E3].
        injection E3 as <-. intros H. injection H as <-. auto. }
      destruct (ColorCore.classifySeason _ _) as [[? ?]|];
        [discriminate | intros H; injection H as <-; auto].
    + unfold Pipeline.analyze, Pipeline.bind.
      destruct (FaceCore.classifyFaceShape rules m) as [e|fs].
      * left. exists e. auto.
      * destruct (Pipeline.classifyColorSeason centroids nb vt cs) as [e|csr].
        -- left. exists e. split; [reflexivity|]. right. exists fs. auto.
        -- right. exists fs, csr. auto.
Qed.

(** With [faces_detected = 0] the page that renders shows the
    general-analysis banner and still the colour season; without
    face-shape recommendations and with an inherited name as face shape it
    throws instead. *)
Lemma no_face_general_analysis (r : AnalysisResult) :
  faces_detected r = Some 0%Z ->
  (face_shape_recommendations r <> None \/ isPrototypeKey (face_shape r) = false ->
   exists page,
     ResultsDisplay r = Page page /\
     In "No face detected, providing general analysis" page /\
     In ("Color Season: " ++ text (color_season r)) page) /\
  (face_shape_recommendations r = None -> isPrototypeKey (face_shape r) = true ->
   ResultsDisplay r = TypeError (face_shape r)).
Proof.
  intros Hf. split; [|exact (resultsDisplay_throws r)].
  intros H. destruct (faceShapeSection_renders r H) as [fs Hfs].
  unfold ResultsDisplay. rewrite Hfs. eexists. split; [reflexivity|].
  unfold header, colorSeasonSection. rewrite Hf. split.
  - simpl. right. left. reflexivity.
  - apply in_or_app. right. apply in_or_app. right. apply in_or_app. left.
    left. reflexivity.
Qed.

End ResultsFacts.

(* ------------------------------------------------------------------ *)
(** ** Fallback after a failed enhanced analysis *)

Module SubmitFacts.

Import Submit.

Definition initialState : SubmitState := mkSubmit false None None None true.

Definition serverError : BackendReply :=
  mkReply false "Internal Server Error"
    (mkResponse "error" (mkLegacyResult "" "" None)) None.

(** C6 (counterexample): when the enhanced analysis throws and the backend
    answers 500, the form ends with an error message and no result of any
    kind. *)
Lemma fallback_fails_outright :
  handleSubmit true None serverError initialState =
  mkSubmit false (Some "Upload failed: Internal Server Error") None None false.
Proof. reflexivity. Qed.

(** C6 (amended): when the enhanced analysis throws, the form switches to
    the legacy backend analysis; it shows the backend's result when the
    reply is ok with status ["completed"], and otherwise sets the error
    message and shows no result. *)
Theorem enhanced_failure_falls_back (reply : BackendReply) (s : SubmitState) :
  useEnhancedAnalysis s = true ->
  let s' := handleSubmit true None reply s in
  useEnhancedAnalysis s' = false /\ enhancedResults s' = None /\
  isUploading s' = false /\
  (if (ok reply && String.eqb (status (body reply)) "completed")%bool then
     results s' = Some (body reply) /\ error s' = None
   else
     results s' = None /\
     error s' = Some (if ok reply then errorDetail (error_detail reply)
                      else "Upload failed: " ++ statusText reply)).
Proof.
  intros Hu. unfold handleSubmit. simpl. rewrite Hu. simpl.
  unfold runLegacyAnalysis.
  destruct (ok reply); simpl; [|auto].
  destruct (String.eqb (status (body reply)) "completed"); simpl; auto.
Qed.

End SubmitFacts.

(* ------------------------------------------------------------------ *)
(** ** Colour statistics and nearest-centroid classification *)

Module ColorFacts.

Import FaceCore (CoreError, InsufficientSamples).
Import ColorCore.

Local Open Scope R_scope.

Lemma clamp01R_range (x : R) : 0 <= clamp01R x <= 1.
Proof.
  unfold clamp01R.
  destruct (Rle_dec x 0); [lra|].
  destruct (Rle_dec 1 x); lra.
Qed.

Lemma pickNearest_spec {A} (key : A -> R) (l : list A) (x : A) (others : list R) :
  pickNearest key l = Some (x, others) ->
  In x l /\ Permutation (map key l) (key x :: others) /\
  Forall (fun d => key x <= d) others.
Proof.
  revert x others.
  induction l as [|y rest IH]; intros x others H; simpl in H; [discriminate|].
  destruct (pickNearest key rest) as [[z others']|] eqn:Hr.
  - destruct (IH z others' eq_refl) as [Hin [Hperm Hall]].
    destruct (Rle_dec (key y) (key z)) as [Hle | Hlt]; injection H as <- <-.
    + split; [left; reflexivity|]. split.
      * simpl. apply perm_skip. exact Hperm.
      * constructor; [exact Hle|].
        eapply Forall_impl; [|exact Hall]. intros d Hd. simpl in Hd. lra.
    + split; [right; exact Hin|]. split.
      * simpl. eapply perm_trans; [apply perm_skip; exact Hperm|]. apply perm_swap.
      * constructor; [lra | exact Hall].
  - injection H as <- <-.
    destruct rest as [|w rest']; [|simpl in Hr; destruct (pickNearest key rest') as [[? ?]|];
      [destruct (Rle_dec _ _)|]; discriminate].
    split; [left; reflexivity|]. split; [apply Permutation_refl | constructor].
Qed.

Lemma fold_Rmin_spec (l : list R) (acc : R) :
  fold_left Rmin l acc <= acc /\ Forall (fun x => fold_left Rmin l acc <= x) l.
Proof.
  revert acc. induction l as [|y l IH]; intros acc; simpl.
  - split; [lra | constructor].
  - destruct (IH (Rmin acc y)) as [Hacc Hall].
    pose proof (Rmin_l acc y). pose proof (Rmin_r acc y).
    split; [lra|]. constructor; [lra | exact Hall].
Qed.

(** C8: the nearest-centroid classification is a function of the
    descriptor tuple: equal tuples give the same season and confidence.
    The season returned is that of a centroid at least as close as every
    other one, and the confidence is
    [1 - (nearest distance / second-nearest distance)] clamped to [0,1]. *)
Theorem classifySeason_deterministic (centroids : list (Season * Descriptor))
    (t1 t2 : Descriptor) :
  t1 = t2 ->
  classifySeason centroids t1 = classifySeason centroids t2 /\
  forall s c, classifySeason centroids t1 = Some (s, c) ->
    exists ctr others,
      In (s, ctr) centroids /\
      Permutation (map (fun sc => dist t1 (snd sc)) centroids) (dist t1 ctr :: others) /\
      Forall (fun d => dist t1 ctr <= d) others /\
      c = match minR others with
          | Some d2 => clamp01R (1 - dist t1 ctr / d2)
          | None => 1
          end /\
      0 <= c <= 1.
Proof.
  intros <-. split; [reflexivity|].
  intros s c H. unfold classifySeason in H.
  destruct (pickNearest (fun sc => dist t1 (snd sc)) centroids) as [[[s' ctr] others]|]
    eqn:Hp; [|discriminate].
  destruct (pickNearest_spec _ _ _ _ Hp) as [Hin [Hperm Hall]].
  exists ctr, others. simpl in Hperm, Hall.
  destruct (minR others) as [d2|] eqn:Hm; injection H as <- <-.
  - split; [exact Hin|]. split; [exact Hperm|]. split; [exact Hall|].
    split; [reflexivity | apply clamp01R_range].
  - split; [exact Hin|]. split; [exact Hperm|]. split; [exact Hall|].
    split; [reflexivity | lra].
Qed.

(** The second-nearest distance used for the confidence is the least of
    the other distances. *)
Lemma minR_spec (l : list R) (d : R) :
  minR l = Some d -> Forall (fun x => d <= x) l.
Proof.
  destruct l as [|x rest]; simpl; intros H; [discriminate|].
  injection H as <-. destruct (fold_Rmin_spec rest x) as [Hx Hall].
  constructor; assumption.
Qed.

(** C4: statistics of an empty sample set fail with
    [InsufficientSamples]; the season classifier returns the same error
    value when a region has no samples; and the results page shown for a
    backend result with [faces_detected = 0], when it renders, carries the
    general-analysis banner next to the colour season; it throws instead
    when the backend sent no face-shape recommendations and the face shape
    is a name inherited from [Object.prototype]. *)
Theorem empty_samples_insufficient :
  colorStats [] = inl InsufficientSamples /\
  (forall centroids neutralBand varianceThreshold cs,
     skin cs = [] \/ hair cs = [] \/ eye cs = [] ->
     Pipeline.classifyColorSeason centroids neutralBand varianceThreshold cs
     = inl InsufficientSamples) /\
  (forall r : Results.AnalysisResult,
     Results.faces_detected r = Some 0%Z ->
     (Results.face_shape_recommendations r <> None \/
      Results.isPrototypeKey (Results.face_shape r) = false ->
      exists page,
        Results.ResultsDisplay r = Results.Page page /\
        In "No face detected, providing general analysis" page /\
        In ("Color Season: " ++ Results.text (Results.color_season r))%string page) /\
     (Results.face_shape_recommendations r = None ->
      Results.isPrototypeKey (Results.face_shape r) = true ->
      Results.ResultsDisplay r = Results.TypeError (Results.face_shape r))).
Proof.
  split; [reflexivity|]. split.
  - intros centroids nb vt cs H. unfold Pipeline.classifyColorSeason, Pipeline.bind.
    destruct H as [H | [H | H]]; rewrite H; simpl; [reflexivity| |].
    + destruct (skin cs); reflexivity.
    + destruct (skin cs); [reflexivity|].
      destruct (hair cs); reflexivity.
  - exact ResultsFacts.no_face_general_analysis.
Qed.

End ColorFacts.

(* ------------------------------------------------------------------ *)
(** ** Keyboard, buttons and swipes of the walkthrough *)

Module NavFacts.

Import Walkthrough Nav.

(** Keyboard navigation as wired by [WalkthroughFlow]: ArrowRight, Space
    and Enter call [handleNext]; ArrowLeft calls [handlePrevious] only past
    the first colour; every other key does nothing. *)
Theorem keyboard_navigation (totalColors : Z) (key : string) (s : State) :
  onKey totalColors key s =
    if (String.eqb key "ArrowRight" || String.eqb key " " || String.eqb key "Enter")%bool
    then handleNext totalColors s
    else if String.eqb key "ArrowLeft" then
      (if Z.ltb 0 (currentIndex s) then handlePrevious s else s)
    else s.
Proof.
  unfold onKey, handleKeyDown, canGoPrevious, canGoNext.
  destruct (String.eqb_spec key "ArrowLeft") as [->|Hl].
  - simpl. destruct (Z.ltb 0 (currentIndex s)); reflexivity.
  - destruct (String.eqb key "ArrowRight" || String.eqb key " " ||
              String.eqb key "Enter")%bool; reflexivity.
Qed.

(** At the first colour the ArrowLeft key and the Back button leave the
    walkthrough unchanged, while a right swipe of more than 50px calls
    [onBack]; past the first colour all three call [handlePrevious]. *)
Theorem back_at_first_color_only_by_swipe (totalColors : Z) (s : State)
    (start stop : Point) :
  handleTouchEnd 50 start stop = Some SwipeRight ->
  (currentIndex s = 0%Z ->
     onKey totalColors "ArrowLeft" s = s /\ onBackButton s = s /\
     onSwipe totalColors start stop s =
       mkState (currentIndex s) (isTransitioning s) (pending s)
               (effects s ++ [OnBack])%list) /\
  ((0 < currentIndex s)%Z ->
     onKey totalColors "ArrowLeft" s = handlePrevious s /\
     onBackButton s = handlePrevious s /\
     onSwipe totalColors start stop s = handlePrevious s).
Proof.
  intros Hsw. unfold onSwipe. rewrite Hsw.
  unfold onKey, onBackButton, handleKeyDown, canGoPrevious. simpl. split.
  - intros H0. rewrite H0. simpl. unfold handlePrevious. rewrite H0. simpl.
    auto.
  - intros Hpos. destruct (Z.ltb_spec 0 (currentIndex s)); [|lia]. auto.
Qed.

(** On the last colour the Next button reads "Summary" while its
    [aria-label] stays "Next color" (the walkthrough always passes
    [canGoNext = true]); Enter, Space and ArrowRight then call
    [onComplete] and schedule no transition. *)
Theorem last_color_summary (totalColors : Z) (key : string) (s : State) :
  currentIndex s = (totalColors - 1)%Z ->
  key = "ArrowRight" \/ key = " " \/ key = "Enter" ->
  nextLabel (currentIndex s) totalColors = "Summary" /\
  nextAriaLabel canGoNext = "Next color" /\
  onKey totalColors key s =
    mkState (currentIndex s) (isTransitioning s) (pending s)
            (effects s ++ [OnComplete])%list.
Proof.
  intros Hlast Hkey. unfold nextLabel. rewrite Hlast, Z.eqb_refl.
  split; [reflexivity|]. split; [reflexivity|].
  assert (Hn : onKey totalColors key s = handleNext totalColors s)
    by (destruct Hkey as [-> | [-> | ->]]; reflexivity).
  rewrite Hn. unfold handleNext. rewrite Hlast, Z.eqb_refl. reflexivity.
Qed.

(** For an index in [0, totalColors - 1] the progress bar is between 0
    (excluded) and 100 percent, and full exactly on the last colour. *)
Theorem progress_width_range (currentIndex totalColors : Z) :
  (0 <= currentIndex <= totalColors - 1)%Z ->
  0 < progressWidth currentIndex totalColors <= 100 /\
  (progressWidth currentIndex totalColors == 100 <-> currentIndex = (totalColors - 1)%Z).
Proof.
  intros Hr. destruct totalColors as [|p|p]; [lia| |lia].
  unfold progressWidth, Qlt, Qle, Qeq, Qdiv, Qmult, Qinv, inject_Z. cbn [Qnum Qden].
  rewrite ?Pos2Z.inj_mul. split; [split; nia|].
  split; intros H; nia.
Qed.

Lemma Qle_bool_compat (x x' y y' : Q) :
  x == x' -> y == y' -> Qle_bool x y = Qle_bool x' y'.
Proof.
  intros Hx Hy.
  destruct (Qle_bool x y) eqn:E; destruct (Qle_bool x' y') eqn:E'; auto.
  - apply Qle_bool_iff in E. rewrite Hx, Hy in E. apply Qle_bool_iff in E. congruence.
  - apply Qle_bool_iff in E'. rewrite <- Hx, <- Hy in E'. apply Qle_bool_iff in E'.
    congruence.
Qed.

(** A touch end calls a swipe callback only when the horizontal movement
    exceeds both the vertical one and the threshold, and calls
    [onSwipeRight] exactly for a movement to the right; the mirrored touch
    calls the opposite callback. *)
Theorem swipe_classification (threshold : Q) (start stop : Point) :
  (forall w, handleTouchEnd threshold start stop = Some w ->
     Qabs (clientY stop - clientY start) < Qabs (clientX stop - clientX start) /\
     threshold < Qabs (clientX stop - clientX start) /\
     (w = SwipeRight <-> 0 < clientX stop - clientX start)) /\
  handleTouchEnd threshold (mirror start) (mirror stop) =
    option_map opposite (handleTouchEnd threshold start stop).
Proof.
  unfold handleTouchEnd, mirror. cbn [clientX clientY].
  set (dx := clientX stop - clientX start).
  set (dy := clientY stop - clientY start).
  assert (Hdx : - clientX stop - - clientX start == - dx) by (unfold dx; ring).
  assert (Ha : Qabs (- clientX stop - - clientX start) == Qabs dx)
    by (rewrite (Qabs_wd _ _ Hdx), Qabs_opp; reflexivity).
  rewrite (Qle_bool_compat _ _ (Qabs dy) (Qabs dy) Ha (Qeq_refl _)).
  rewrite (Qle_bool_compat _ _ threshold threshold Ha (Qeq_refl _)).
  rewrite (Qle_bool_compat _ _ 0 0 Hdx (Qeq_refl _)).
  destruct (Qle_bool (Qabs dx) (Qabs dy)) eqn:Hxy; cbn [negb andb option_map];
    [split; [discriminate | reflexivity]|].
  destruct (Qle_bool (Qabs dx) threshold) eqn:Ht; cbn [negb andb option_map];
    [split; [discriminate | reflexivity]|].
  assert (Hlt1 : Qabs dy < Qabs dx)
    by (apply Qnot_le_lt; intros H; apply Qle_bool_iff in H; congruence).
  assert (Hlt2 : threshold < Qabs dx)
    by (apply Qnot_le_lt; intros H; apply Qle_bool_iff in H; congruence).
  assert (Hnz : ~ dx == 0).
  { intros H0.
    assert (Hz : Qabs dx == 0) by (rewrite (Qabs_wd _ _ H0); reflexivity).
    rewrite Hz in Hlt1. apply (Qlt_not_le _ _ Hlt1). apply Qabs_nonneg. }
  destruct (Qle_bool dx 0) eqn:Hs.
  - apply Qle_bool_iff in Hs.
    assert (Hneg : Qle_bool (- dx) 0 = false).
    { destruct (Qle_bool (- dx) 0) eqn:E; [|reflexivity].
      apply Qle_bool_iff in E. exfalso. apply Hnz. apply Qle_antisym; [exact Hs|].
      apply Qopp_le_compat in E. rewrite Qopp_involutive in E. exact E. }
    rewrite Hneg. cbn [negb option_map opposite]. split; [|reflexivity].
    intros w Hw. injection Hw as <-. split; [exact Hlt1|]. split; [exact Hlt2|].
    split; [discriminate|]. intros H. exfalso. apply (Qlt_not_le _ _ H Hs).
  - assert (Hpos : 0 < dx)
      by (apply Qnot_le_lt; intros H; apply Qle_bool_iff in H; congruence).
    assert (Hneg : Qle_bool (- dx) 0 = true).
    { apply Qle_bool_iff. apply Qlt_le_weak in Hpos.
      apply Qopp_le_compat in Hpos. exact Hpos. }
    rewrite Hneg. cbn [negb option_map opposite]. split; [|reflexivity].
    intros w Hw. injection Hw as <-. split; [exact Hlt1|]. split; [exact Hlt2|].
    split; [intros _; exact Hpos | reflexivity].
Qed.

End NavFacts.

(* ------------------------------------------------------------------ *)
(** ** Upload progress and camera capture *)

Module UploadExtraFacts.

Import Upload UploadExtra.

Lemma tick_min (p : Z) : tick p = Z.min (p + 5) 95.
Proof. unfold tick. destruct (Z.leb_spec 95 (p + 5)); lia. Qed.

(** From a value of at most 95, the simulated progress after [k] runs of
    the interval is [min(p + 5k, 95)]: it never shows 100 while the upload
    runs. *)
Theorem upload_progress_capped (k : nat) (p : Z) :
  (p <= 95)%Z ->
  ticks k p = Z.min (p + 5 * Z.of_nat k) 95 /\ (ticks k p <= 95)%Z.
Proof.
  revert p. induction k as [|k IH]; intros p Hp.
  - simpl. lia.
  - simpl. rewrite tick_min.
    destruct (IH (Z.min (p + 5) 95)) as [Heq Hle]; [lia|].
    rewrite Heq. lia.
Qed.

(** A photo from the camera becomes the form's file, of type
    [image/jpeg], whatever its size, and opens the analysis; [onDrop] would
    have refused the same file above 5MB.  The earlier error message is
    kept. *)
Theorem camera_capture_skips_size_check (createObjectURL : File -> string)
    (imageSrc : string) (n : Z) (s : CameraState) :
  (maxSize < n)%Z ->
  let s' := handleCameraCapture imageSrc (BlobOf n) s in
  file (form s') = Some (mkFile "image/jpeg" n) /\
  entersPipeline (form s') = true /\
  error (form s') = error (form s) /\
  validUpload (mkFile "image/jpeg" n) = false /\
  onDrop createObjectURL [mkFile "image/jpeg" n] (form s) =
    Some (mkForm (file (form s)) (preview (form s))
                 (Some "File size should be less than 5MB")).
Proof.
  intros Hn. simpl. split; [reflexivity|]. split; [reflexivity|].
  split; [reflexivity|]. unfold validUpload, onDrop. simpl.
  destruct (Z.leb_spec n maxSize); [lia|].
  destruct (Z.ltb_spec maxSize n); [|lia]. auto.
Qed.

End UploadExtraFacts.

(* ------------------------------------------------------------------ *)
(** ** Submit outcomes *)

Module SubmitExtraFacts.

Import Submit.

Lemma errorDetail_nonempty (d : option string) : errorDetail d <> "".
Proof.
  unfold errorDetail. destruct d as [m|]; [|discriminate].
  destruct (String.eqb_spec m ""); [discriminate | exact n].
Qed.

(** A successful enhanced analysis never consults the backend: whatever
    the backend would answer, the form ends with the enhanced result only,
    no error and the upload finished. *)
Theorem enhanced_success_ignores_backend
    (r : Compat.ComprehensiveAnalysisResult) (reply : BackendReply) (s : SubmitState) :
  useEnhancedAnalysis s = true ->
  handleSubmit true (Some r) reply s = mkSubmit false None None (Some r) true.
Proof.
  intros Hu. unfold handleSubmit. simpl. rewrite Hu. simpl.
  unfold set_isUploading, set_enhancedResults. simpl. rewrite Hu. reflexivity.
Qed.

(** Once an enhanced analysis has failed, the form stays on the legacy
    backend: the next submit gives the same state whatever the enhanced
    analysis would return, and never shows an enhanced result. *)
Theorem enhanced_failure_is_permanent (s0 : SubmitState) (reply0 reply : BackendReply)
    (e : option Compat.ComprehensiveAnalysisResult) :
  let s1 := handleSubmit true None reply0 s0 in
  useEnhancedAnalysis s1 = false /\
  handleSubmit true e reply s1 = handleSubmit true None reply s1 /\
  enhancedResults (handleSubmit true e reply s1) = None /\
  useEnhancedAnalysis (handleSubmit true e reply s1) = false.
Proof.
  assert (Hleg : forall reply s, useEnhancedAnalysis s = false ->
            useEnhancedAnalysis (handleSubmit true e reply s) = false /\
            handleSubmit true e reply s = handleSubmit true None reply s /\
            enhancedResults (handleSubmit true e reply s) = None).
  { intros rp [a b c d u] Hs. simpl in Hs. subst u.
    unfold handleSubmit, runLegacyAnalysis. simpl.
    destruct (ok rp); simpl; [|auto].
    destruct (String.eqb (status (body rp)) "completed"); simpl; auto. }
  simpl.
  assert (H1 : useEnhancedAnalysis (handleSubmit true None reply0 s0) = false).
  { destruct s0 as [a b c d u].
    unfold handleSubmit, runEnhancedAnalysis, runLegacyAnalysis. simpl.
    destruct u; simpl;
      (destruct (ok reply0); simpl;
       [destruct (String.eqb (status (body reply0)) "completed"); simpl|]); auto. }
  destruct (Hleg reply _ H1) as [Ha [Hb Hc]]. auto.
Qed.

(** Every submitted analysis ends with the upload finished and exactly one
    of: a non-empty error message, the backend result, or the enhanced
    result; the panels never show two of them. *)
Theorem submit_outcome_exclusive (e : option Compat.ComprehensiveAnalysisResult)
    (reply : BackendReply) (s : SubmitState) :
  let s' := handleSubmit true e reply s in
  isUploading s' = false /\
  ((exists m, error s' = Some m /\ m <> "" /\ results s' = None /\ enhancedResults s' = None) \/
   (error s' = None /\ results s' = Some (body reply) /\ enhancedResults s' = None) \/
   (exists r, e = Some r /\ error s' = None /\ results s' = None /\
              enhancedResults s' = Some r)).
Proof.
  destruct s as [a b c d u].
  unfold handleSubmit, runEnhancedAnalysis, runLegacyAnalysis. simpl.
  destruct u; [destruct e as [r|]|]; simpl.
  all: try (destruct (ok reply); simpl;
            [destruct (String.eqb (status (body reply)) "completed"); simpl|]).
  all: split; [reflexivity|].
  all: first
    [ solve [right; right; eexists; split; [reflexivity | auto]]
    | solve [right; left; auto]
    | solve [left; eexists; split; [reflexivity|];
             split; [first [apply errorDetail_nonempty | discriminate] | auto]] ].
Qed.

End SubmitExtraFacts.

(* ------------------------------------------------------------------ *)
(** ** Results page helpers and the walkthrough record's colours *)

Module ResultsExtraFacts.

Import Results.

(** The fallback lookup gives a three-entry list for every face shape
    that is not a name inherited from [Object.prototype]; for such a name
    it gives the inherited member, and the results page of a backend
    result without face-shape recommendations then throws on [.map]. The
    lookup matches the capitalised names exactly: each of the seven names
    in lower case gets the generic default, while each capitalised name
    has its own list. *)
Theorem fallback_recommendations_keys (faceShape : string) :
  (isPrototypeKey faceShape = false ->
   exists l, getFaceShapeRecommendations faceShape = JsArray l /\ length l = 3%nat) /\
  (isPrototypeKey faceShape = true ->
   getFaceShapeRecommendations faceShape = InheritedMember faceShape /\
   forall r, face_shape r = faceShape -> face_shape_recommendations r = None ->
     ResultsDisplay r = TypeError faceShape) /\
  Forall (fun n => getFaceShapeRecommendations (toLowerCase n) =
                     JsArray defaultRecommendations /\
                   getFaceShapeRecommendations n <> JsArray defaultRecommendations)
    ["Oval"; "Round"; "Square"; "Heart"; "Diamond"; "Oblong"; "Triangle"].
Proof.
  split; [|split].
  - intros Hk. unfold getFaceShapeRecommendations. rewrite Hk.
    unfold ownRecommendations.
    repeat match goal with |- context [if ?c then _ else _] => destruct c end;
      eexists; split; reflexivity.
  - intros Hk. split.
    + unfold getFaceShapeRecommendations.
      rewrite (ResultsFacts.prototypeKey_not_own _ Hk), Hk. reflexivity.
    + intros r <- Hf. exact (ResultsFacts.resultsDisplay_throws r Hf Hk).
  - repeat constructor; discriminate.
Qed.

Lemma firstn_add_split {A} (n m : nat) (l : list A) :
  firstn (n + m) l = (firstn n l ++ firstn m (skipn n l))%list.
Proof.
  revert l. induction n as [|n IH]; intros l; [reflexivity|].
  destruct l as [|x l]; [destruct m; reflexivity|]. simpl. rewrite IH. reflexivity.
Qed.

(** The primary, secondary and accent colours of the walkthrough record
    hold at most four hex codes each and together are the hex codes of
    the first twelve recommended colours in order, while [bestColors]
    names every recommended colour, in order: recommended colours past the
    twelfth only appear there. Without a palette all of them are empty. *)
Theorem walkthrough_colors_first_twelve (r : AnalysisResult) :
  let rec := Compat.handleStartWalkthrough_record r in
  let c := Compat.colors (Compat.recommendations rec) in
  (length (Compat.primary c) <= 4)%nat /\ (length (Compat.secondary c) <= 4)%nat /\
  (length (Compat.accent c) <= 4)%nat /\
  match palette r with
  | Some p =>
      Compat.bestColors (Compat.colorSeasonR rec) = map name (recommended p) /\
      (forall col, In col (recommended p) ->
         In (name col) (Compat.bestColors (Compat.colorSeasonR rec))) /\
      app (Compat.primary c) (app (Compat.secondary c) (Compat.accent c)) =
        map hex (firstn 12 (recommended p)) /\
      length (app (Compat.primary c) (app (Compat.secondary c) (Compat.accent c))) =
        Nat.min 12 (length (recommended p))
  | None =>
      Compat.bestColors (Compat.colorSeasonR rec) = [] /\
      Compat.primary c = [] /\ Compat.secondary c = [] /\ Compat.accent c = []
  end.
Proof.
  cbv zeta. unfold Compat.handleStartWalkthrough_record.
  cbn [Compat.colors Compat.recommendations Compat.primary Compat.secondary
       Compat.accent Compat.bestColors Compat.colorSeasonR].
  unfold Compat.paletteSlice, Compat.paletteMap, Compat.slice.
  destruct (palette r) as [p|]; [|repeat split; auto].
  set (l := recommended p).
  change (4 - 0)%nat with 4%nat. change (8 - 4)%nat with 4%nat.
  change (12 - 8)%nat with 4%nat. change (skipn 0 l) with l.
  assert (Happ : app (map hex (firstn 4 l))
                   (app (map hex (firstn 4 (skipn 4 l))) (map hex (firstn 4 (skipn 8 l))))
                 = map hex (firstn 12 l)).
  { rewrite <- !map_app.
    change 12%nat with (4 + 8)%nat. rewrite firstn_add_split.
    change 8%nat with (4 + 4)%nat. rewrite firstn_add_split, skipn_skipn.
    reflexivity. }
  split; [rewrite length_map; apply firstn_le_length|].
  split; [rewrite length_map; apply firstn_le_length|].
  split; [rewrite length_map; apply firstn_le_length|].
  split; [reflexivity|]. split.
  - intros col Hin. apply in_map. exact Hin.
  - split; [exact Happ|]. rewrite Happ, length_map, length_firstn. reflexivity.
Qed.

End ResultsExtraFacts.

(* ------------------------------------------------------------------ *)
(** ** Polling page *)

Module ClientFacts.

Import Client.

Local Open Scope Z_scope.

Lemma set_local_progress (d : string) (s : ClientState) :
  progress (set_local d s) = progress s /\ error (set_local d s) = error s /\
  results (set_local d s) = results s /\ status (set_local d s) = status s.
Proof. repeat split. Qed.

(** Starting from a value in [0, 100] and with a non-negative poll count,
    the progress after [fetchResults] stays in [0, 100]; a pending analysis
    shows between 10 and 40, a processing one between 40 and 90. *)
Theorem fetch_progress_bounds (pollCount : Z) (reply : FetchReply) (s : ClientState) :
  0 <= pollCount -> 0 <= progress s <= 100 ->
  let '(s', cur) := fetchResults pollCount reply s in
  0 <= progress s' <= 100 /\
  (cur = "pending" -> 10 <= progress s' <= 40) /\
  (cur = "processing" -> 40 <= progress s' <= 90).
Proof.
  intros Hpc Hs. destruct reply as [t|data|m].
  - simpl. split; [exact Hs|]. split; discriminate.
  - unfold fetchResults. cbv zeta.
    destruct (d_detail data) as [d|];
      [destruct (truthy (Some d) && includes d "local analysis")%bool|].
    all: destruct (d_results data) as [r|];
      [destruct (String.eqb_spec (d_status data) "completed") as [Hc|Hc]|].
    all: try (destruct (String.eqb_spec (d_status data) "error") as [He|He];
              [|destruct (String.eqb_spec (d_status data) "pending") as [Hp|Hp];
                [|destruct (String.eqb_spec (d_status data) "processing") as [Hq|Hq]]]).
    all: cbn [progress set_progress set_results set_status set_local set_error fst snd].
    all: repeat split; try lia; intros Hst; first [congruence | lia].
  - simpl. split; [exact Hs|]. split; discriminate.
Qed.

(** A body with status "completed" but no results stops the polling chain
    without error or results: the page stays on the progress view with
    the progress unchanged. *)
Theorem completed_without_results_stalls (pollCount attempts : Z)
    (data : ResultsData) (s : ClientState) :
  d_status data = "completed" -> d_results data = None ->
  error s = None -> results s = None ->
  let '(s', cur) := fetchResults pollCount (Body data) s in
  pollDecision attempts cur = Stop /\ error s' = None /\ results s' = None /\
  progress s' = progress s /\
  render s' = ProgressView "Analyzing Features" (progress s)
                "Analyzing image features. This may take up to a minute...".
Proof.
  intros Hst Hr He Hres.
  destruct s as [st res err prog loc det]; simpl in He, Hres; subst err res.
  unfold fetchResults. rewrite Hr, Hst.
  destruct (d_detail data) as [d|];
    [destruct (truthy (Some d) && includes d "local analysis")%bool|];
    simpl; repeat split.
Qed.

(** An HTTP error stops the polling chain after that fetch and shows the
    failure view with the response's status text; polling is not
    retried. *)
Theorem http_error_ends_polling (pollCount attempts : Z) (statusText : string)
    (s : ClientState) :
  let '(s', cur) := fetchResults pollCount (HttpError statusText) s in
  pollDecision attempts cur = Stop /\
  render s' = FailedView ("Failed to fetch results: " ++ statusText).
Proof. simpl. split; reflexivity. Qed.

(** A body with status "error" stops the polling chain, resets the
    progress to 0 and shows the failure view with [error_detail] or
    "Analysis failed". *)
Theorem error_status_ends_polling (pollCount attempts : Z) (data : ResultsData)
    (s : ClientState) :
  d_status data = "error" ->
  let '(s', cur) := fetchResults pollCount (Body data) s in
  pollDecision attempts cur = Stop /\ progress s' = 0 /\
  render s' = FailedView (Submit.errorDetail (d_error_detail data)).
Proof.
  intros Hst. unfold fetchResults. rewrite Hst.
  assert (Hne : String.eqb (Submit.errorDetail (d_error_detail data)) "" = false)
    by (apply String.eqb_neq, SubmitExtraFacts.errorDetail_nonempty).
  destruct (d_detail data) as [d|];
    [destruct (truthy (Some d) && includes d "local analysis")%bool|];
    destruct (d_results data); simpl;
    (split; [reflexivity|]; split; [reflexivity|]);
    unfold render, truthy; simpl; rewrite Hne; reflexivity.
Qed.

Lemma pollChain_bound (pollCount : Z) (replies : list FetchReply) :
  forall attempts s, 0 <= attempts <= 29 ->
  (snd (pollChain pollCount attempts replies s) <= Z.to_nat (30 - attempts))%nat.
Proof.
  induction replies as [|r rest IH]; intros attempts s Ha; cbn [pollChain snd]; [lia|].
  destruct (fetchResults pollCount r s) as [s' cur].
  unfold pollDecision, maxAttempts.
  destruct (String.eqb cur "completed" || String.eqb cur "error")%bool; cbn [snd]; [lia|].
  destruct (Z.ltb_spec (attempts + 1) 30); cbn [snd]; [|lia].
  specialize (IH (attempts + 1) s' ltac:(lia)).
  destruct (pollChain pollCount (attempts + 1) rest s') as [s'' n]. cbn [snd] in *. lia.
Qed.

(** One chain of [pollResults] calls makes at most 30 fetches, whatever
    the answers. *)
Theorem poll_chain_bounded (pollCount : Z) (replies : list FetchReply) (s : ClientState) :
  (snd (pollChain pollCount 0 replies s) <= 30)%nat.
Proof. apply (pollChain_bound pollCount replies 0 s). lia. Qed.

Lemma pollChain_timeout (pollCount : Z) (replies : list FetchReply) :
  forall attempts s, 0 <= attempts <= 29 ->
  (Z.to_nat (30 - attempts) <= length replies)%nat ->
  Forall stillRunning (firstn (Z.to_nat (30 - attempts)) replies) ->
  snd (pollChain pollCount attempts replies s) = Z.to_nat (30 - attempts) /\
  error (fst (pollChain pollCount attempts replies s)) =
    Some "Analysis timed out. Please try again.".
Proof.
  induction replies as [|r rest IH]; intros attempts s Ha Hl Hf;
    cbn [length] in Hl; [lia|].
  replace (Z.to_nat (30 - attempts)) with (S (Z.to_nat (30 - (attempts + 1)))) in Hf |- *
    by lia.
  cbn [firstn] in Hf. inversion Hf as [|x l Hr Hrest]; subst.
  destruct Hr as [data [-> [Hc He]]]. cbn [pollChain].
  destruct (fetchResults pollCount (Body data) s) as [s' cur] eqn:Hfe.
  assert (Hcur : cur = d_status data)
    by (unfold fetchResults in Hfe; injection Hfe; auto).
  subst cur. unfold pollDecision, maxAttempts.
  rewrite (proj2 (String.eqb_neq _ _) Hc), (proj2 (String.eqb_neq _ _) He).
  cbn [orb].
  destruct (Z.ltb_spec (attempts + 1) 30).
  - destruct (IH (attempts + 1) s' ltac:(lia) ltac:(lia) Hrest) as [Hn Herr].
    destruct (pollChain pollCount (attempts + 1) rest s') as [s'' n].
    cbn [fst snd] in *. split; [lia | exact Herr].
  - cbn [fst snd error set_error]. split; [lia | reflexivity].
Qed.

(** If the first 30 fetches of a chain all answer with a status other than
    "completed" or "error", the chain makes exactly those 30 fetches and
    ends on the time-out failure view. *)
Theorem poll_chain_times_out (pollCount : Z) (replies : list FetchReply) (s : ClientState) :
  (30 <= length replies)%nat ->
  Forall stillRunning (firstn 30 replies) ->
  snd (pollChain pollCount 0 replies s) = 30%nat /\
  render (fst (pollChain pollCount 0 replies s)) =
    FailedView "Analysis timed out. Please try again.".
Proof.
  intros Hl Hf.
  destruct (pollChain_timeout pollCount replies 0 s ltac:(lia) Hl Hf) as [Hn He].
  split; [exact Hn|]. unfold render. rewrite He. reflexivity.
Qed.

(** A completed body with results whose [detail] mentions "local
    analysis" stops the chain with the progress at 100; the page is then
    the rendered results followed by the local-analysis banner carrying
    that detail, or, when [ResultsDisplay] throws, neither of them. *)
Theorem local_analysis_banner (pollCount attempts : Z) (data : ResultsData)
    (r : Results.AnalysisResult) (d : string) (s : ClientState) :
  d_status data = "completed" -> d_results data = Some r -> d_detail data = Some d ->
  includes d "local analysis" = true -> error s = None ->
  let '(s', cur) := fetchResults pollCount (Body data) s in
  pollDecision attempts cur = Stop /\ progress s' = 100 /\
  render s' =
    match Results.ResultsDisplay r with
    | Results.Page page => ResultsView page (Some d)
    | Results.TypeError k => RenderThrows k
    end.
Proof.
  intros Hst Hr Hd Hi He.
  assert (Hne : String.eqb d "" = false)
    by (destruct d; [discriminate Hi | reflexivity]).
  unfold fetchResults. rewrite Hst, Hr, Hd. unfold truthy. rewrite Hne, Hi. simpl.
  split; [reflexivity|]. split; [reflexivity|].
  unfold render, truthy. simpl. rewrite He. simpl. rewrite Hne.
  destruct (Results.ResultsDisplay r); reflexivity.
Qed.

End ClientFacts.

(* ------------------------------------------------------------------ *)
(** ** Walkthrough hand-off *)

Module HandoffFacts.

Import Handoff.

Lemma getItem_setItem_same (k v : string) (st : Storage) :
  getItem k (setItem k v st) = Some v.
Proof. unfold getItem, setItem. simpl. rewrite String.eqb_refl. reflexivity. Qed.

Lemma getItem_setItem_other (k k' v : string) (st : Storage) :
  String.eqb k' k = false -> getItem k (setItem k' v st) = getItem k st.
Proof. intros H. unfold getItem, setItem. simpl. rewrite H. reflexivity. Qed.

(** Whenever the entry screen is offered, starting the walkthrough stores
    the compatibility record and the photo under the keys the walkthrough
    page reads: the page for the same id shows the walkthrough of that
    record with that photo, and keeps the id for the way back (given that
    [JSON.parse] reads back what [JSON.stringify] wrote). *)
Theorem walkthrough_handoff
    (stringify : Compat.ComprehensiveAnalysisResult -> string)
    (drapingJSON : Results.AnalysisResult -> string -> string -> string)
    (parse : string -> option Compat.ComprehensiveAnalysisResult)
    (r : Results.AnalysisResult) (analysisId url : string) (st : Storage) :
  Results.AnalysisResultsEntry true r (Some url) = Results.ShowEntryScreen ->
  analysisId <> "" ->
  stringify (Compat.handleStartWalkthrough_record r) <> "" ->
  parse (stringify (Compat.handleStartWalkthrough_record r)) =
    Some (Compat.handleStartWalkthrough_record r) ->
  let '(st', route) :=
    handleStartWalkthrough stringify drapingJSON r analysisId (Some url) st in
  route = "/analyze/" ++ analysisId ++ "/walkthrough" /\
  walkthroughPage parse analysisId st' =
    mkPage (Some (Compat.handleStartWalkthrough_record r)) url false None
           (Some analysisId) /\
  renderPage analysisId (walkthroughPage parse analysisId st') =
    WalkthroughView (Compat.handleStartWalkthrough_record r) url analysisId.
Proof.
  intros Hentry Hid Hjs Hparse.
  assert (Hurl : String.eqb url "" = false).
  { unfold Results.AnalysisResultsEntry, Results.hasWalkthroughData in Hentry.
    destruct url; [|reflexivity].
    rewrite andb_false_r in Hentry. simpl in Hentry. discriminate. }
  unfold handleStartWalkthrough. rewrite Hurl.
  set (rec := Compat.handleStartWalkthrough_record r) in *.
  set (st' := setItem ("original_id_" ++ analysisId) analysisId
               (setItem ("photo_" ++ analysisId) url
                 (setItem ("draping_" ++ analysisId) (drapingJSON r url analysisId)
                   (setItem ("analysis_" ++ analysisId) (stringify rec) st)))).
  assert (Hpage : walkthroughPage parse analysisId st' =
                  mkPage (Some rec) url false None (Some analysisId)).
  { unfold walkthroughPage. rewrite (proj2 (String.eqb_neq _ _) Hid).
    unfold loadAnalysisData, st'.
    rewrite (getItem_setItem_other ("analysis_" ++ analysisId)) by reflexivity.
    rewrite (getItem_setItem_other ("analysis_" ++ analysisId)) by reflexivity.
    rewrite (getItem_setItem_other ("analysis_" ++ analysisId)) by reflexivity.
    rewrite getItem_setItem_same.
    rewrite (getItem_setItem_other ("photo_" ++ analysisId)) by reflexivity.
    rewrite getItem_setItem_same.
    rewrite getItem_setItem_same.
    rewrite (proj2 (String.eqb_neq _ _) Hjs), Hurl, Hparse. reflexivity. }
  split; [reflexivity|]. split; [exact Hpage|].
  rewrite Hpage. reflexivity.
Qed.

(** Without a photo URL, starting the walkthrough stores nothing and still
    navigates to the walkthrough page, which then ends on "Analysis data
    not found" unless a photo was stored earlier under that id. *)
Theorem walkthrough_without_photo_not_found
    (stringify : Compat.ComprehensiveAnalysisResult -> string)
    (drapingJSON : Results.AnalysisResult -> string -> string -> string)
    (parse : string -> option Compat.ComprehensiveAnalysisResult)
    (r : Results.AnalysisResult) (analysisId : string) (st : Storage) :
  analysisId <> "" -> getItem ("photo_" ++ analysisId) st = None ->
  let '(st', route) :=
    handleStartWalkthrough stringify drapingJSON r analysisId None st in
  st' = st /\ route = "/analyze/" ++ analysisId ++ "/walkthrough" /\
  renderPage analysisId (walkthroughPage parse analysisId st') =
    NotFoundView "Analysis data not found. Please start a new analysis.".
Proof.
  intros Hid Hph. simpl. split; [reflexivity|]. split; [reflexivity|].
  unfold walkthroughPage. rewrite (proj2 (String.eqb_neq _ _) Hid).
  unfold loadAnalysisData. rewrite Hph.
  destruct (getItem ("analysis_" ++ analysisId) st); reflexivity.
Qed.

End HandoffFacts.

(* ------------------------------------------------------------------ *)
(** ** Runs of the theorems on concrete inputs *)

Module Witnesses.

Import FaceCore.

Definition sampleMeasurements : Compat.FaceMeasurements :=
  Compat.mkMeasurements 100 100 98 100 99 1 130.

Definition flatMeasurements : Compat.FaceMeasurements :=
  Compat.mkMeasurements 0 120 80 90 95 0 45.

Lemma classifyFaceShape_label_and_confidence_witness :
  0 < Compat.faceWidth sampleMeasurements /\ 0 < Compat.faceHeight sampleMeasurements /\
  exists res, classifyFaceShape exampleRules sampleMeasurements = inr res /\
    In (faceShape res) allFaceShapes /\ 0 <= confidence res <= 1.
Proof.
  split; [vm_compute; reflexivity|]. split; [vm_compute; reflexivity|].
  apply FaceFacts.classifyFaceShape_label_and_confidence; vm_compute; reflexivity.
Defined.

Lemma classifyFaceShape_degenerate_witness :
  (Compat.faceWidth flatMeasurements <= 0 \/ Compat.faceHeight flatMeasurements <= 0) /\
  classifyFaceShape exampleRules flatMeasurements = inl DegenerateGeometry /\
  forall centroids neutralBand varianceThreshold cs processingTime,
    Pipeline.analyze exampleRules centroids neutralBand varianceThreshold
      flatMeasurements cs processingTime = inl DegenerateGeometry.
Proof.
  assert (H : Compat.faceWidth flatMeasurements <= 0 \/
              Compat.faceHeight flatMeasurements <= 0)
    by (left; unfold Qle; simpl; lia).
  split; [exact H|].
  apply FaceFacts.classifyFaceShape_degenerate. exact H.
Defined.

(** The cases of the amended C2 statement for one classifier run. *)
Definition marginCases (rules : list Rule) (m : Compat.FaceMeasurements)
    (res : FaceShapeResult) : Prop :=
  (scoredRules rules m = [] /\ faceShape res = oval /\ confidence res = 0) \/
  exists lab best others,
    In (lab, best) (scoredRules rules m) /\
    Permutation (map snd (scoredRules rules m)) (best :: others) /\
    Forall (fun x => x <= best) others /\
    ((others = [] /\ faceShape res = lab /\
      confidence res = clamp01 (normalizedMargin best 0)) \/
     (exists second,
        In second others /\ Forall (fun x => x <= second) others /\
        ((second == best /\ faceShape res = oval /\ confidence res <= 1 # 2) \/
         (~ second == best /\ faceShape res = lab /\
          confidence res = clamp01 (normalizedMargin best second))))).

(** A table where two rules match with scores 0.9 and 0.6 (and a third
    does not match), and one where two rules tie at 0.7. *)
Definition runnerUpRules : list Rule :=
  [mkRule (fun _ => true) heart (fun _ => 9 # 10);
   mkRule (fun _ => false) oblong (fun _ => 1);
   mkRule (fun _ => true) round (fun _ => 6 # 10)].

Definition tieRules : list Rule :=
  [mkRule (fun _ => true) diamond (fun _ => 7 # 10);
   mkRule (fun _ => true) square (fun _ => 7 # 10)].

Lemma confidence_margin_and_compat_constant_witness :
  (exists res,
     classifyFaceShape runnerUpRules sampleMeasurements = inr res /\
     scoredRules runnerUpRules sampleMeasurements = [(heart, 9 # 10); (round, 6 # 10)] /\
     faceShape res = heart /\ confidence res == 1 # 3 /\
     marginCases runnerUpRules sampleMeasurements res) /\
  (exists res,
     classifyFaceShape tieRules sampleMeasurements = inr res /\
     scoredRules tieRules sampleMeasurements = [(diamond, 7 # 10); (square, 7 # 10)] /\
     faceShape res = oval /\ confidence res == 0 /\
     marginCases tieRules sampleMeasurements res).
Proof.
  split.
  - eexists. split; [vm_compute; reflexivity|].
    split; [reflexivity|]. split; [reflexivity|]. split; [vm_compute; reflexivity|].
    unfold marginCases.
    apply (proj1 ConfidenceFacts.confidence_margin_and_compat_constant).
    vm_compute. reflexivity.
  - eexists. split; [vm_compute; reflexivity|].
    split; [reflexivity|]. split; [reflexivity|]. split; [vm_compute; reflexivity|].
    unfold marginCases.
    apply (proj1 ConfidenceFacts.confidence_margin_and_compat_constant).
    vm_compute. reflexivity.
Defined.

Definition sampleReply : Submit.BackendReply :=
  Submit.mkReply true "OK"
    (Submit.mkResponse "completed" (Submit.mkLegacyResult "Oval" "Autumn" None)) None.

Lemma enhanced_failure_falls_back_witness :
  Submit.useEnhancedAnalysis SubmitFacts.initialState = true /\
  let s' := Submit.handleSubmit true None sampleReply SubmitFacts.initialState in
  Submit.useEnhancedAnalysis s' = false /\ Submit.enhancedResults s' = None /\
  Submit.isUploading s' = false /\
  (if (Submit.ok sampleReply &&
       String.eqb (Submit.status (Submit.body sampleReply)) "completed")%bool then
     Submit.results s' = Some (Submit.body sampleReply) /\ Submit.error s' = None
   else
     Submit.results s' = None /\
     Submit.error s' = Some (if Submit.ok sampleReply
                             then Submit.errorDetail (Submit.error_detail sampleReply)
                             else "Upload failed: " ++ Submit.statusText sampleReply)).
Proof.
  split; [reflexivity|].
  apply SubmitFacts.enhanced_failure_falls_back. reflexivity.
Defined.

Definition constructorOnly : Results.AnalysisResult :=
  Results.mkResult "constructor" None None None None.

Lemma results_without_palette_witness :
  Results.palette ResultsFacts.shapeOnly = None /\
  Results.AnalysisResultsEntry true ResultsFacts.shapeOnly (Some "blob:photo") =
    Results.ShowResults (Results.ResultsDisplay ResultsFacts.shapeOnly) /\
  (exists fs,
     Results.faceShapeSection ResultsFacts.shapeOnly = Some fs /\
     Results.ResultsDisplay ResultsFacts.shapeOnly =
       Results.Page
         (app (Results.header ResultsFacts.shapeOnly)
            (app fs
               (app ["Color Season: " ++ Results.text (Results.color_season ResultsFacts.shapeOnly);
                     "Your color analysis indicates you're a " ++
                       Results.text (Results.color_season ResultsFacts.shapeOnly) ++ " type."]
                  Results.actions)))) /\
  Results.palette constructorOnly = None /\
  Results.AnalysisResultsEntry true constructorOnly (Some "blob:photo") =
    Results.ShowResults (Results.TypeError "constructor").
Proof.
  destruct (ResultsFacts.results_without_palette true ResultsFacts.shapeOnly
              (Some "blob:photo") eq_refl) as [H1 [H2 _]].
  destruct (ResultsFacts.results_without_palette true constructorOnly
              (Some "blob:photo") eq_refl) as [K1 [_ [K3 _]]].
  split; [reflexivity|]. split; [exact H1|]. split; [apply H2; right; reflexivity|].
  split; [reflexivity|]. rewrite K1, K3; reflexivity.
Defined.

Definition sampleFile : Upload.File := Upload.mkFile "image/png" 2048.

Lemma onDrop_validates_witness :
  Upload.validUpload sampleFile = true /\
  exists s', Upload.onDrop (fun _ => "blob:1") [sampleFile] (Upload.mkForm None None None)
               = Some s' /\
    Upload.file s' = Some sampleFile /\ Upload.entersPipeline s' = true.
Proof.
  split; [reflexivity|].
  destruct (UploadFacts.onDrop_validates (fun _ => "blob:1") sampleFile []
              (Upload.mkForm None None None)) as [s' [Hd [Hv [_ [_ Hp]]]]].
  exists s'. split; [exact Hd|].
  split; [exact (proj1 (Hv eq_refl))|].
  rewrite (Hp eq_refl). reflexivity.
Defined.

Local Open Scope R_scope.

Definition sampleCentroids : list (ColorCore.Season * ColorCore.Descriptor) :=
  [(ColorCore.DeepAutumn, ColorCore.mkDescriptor 1 (6 / 10) 40 25);
   (ColorCore.LightSummer, ColorCore.mkDescriptor (-1) (2 / 10) 75 10)].

Definition sampleTuple : ColorCore.Descriptor := ColorCore.mkDescriptor 1 (5 / 10) 60 18.

Lemma classifySeason_deterministic_witness :
  sampleTuple = sampleTuple /\
  ColorCore.classifySeason sampleCentroids sampleTuple =
    ColorCore.classifySeason sampleCentroids sampleTuple /\
  forall s c, ColorCore.classifySeason sampleCentroids sampleTuple = Some (s, c) ->
    exists ctr others,
      In (s, ctr) sampleCentroids /\
      Permutation (map (fun sc => ColorCore.dist sampleTuple (snd sc)) sampleCentroids)
        (ColorCore.dist sampleTuple ctr :: others) /\
      Forall (fun d => ColorCore.dist sampleTuple ctr <= d) others /\
      c = match ColorCore.minR others with
          | Some d2 => ColorCore.clamp01R (1 - ColorCore.dist sampleTuple ctr / d2)
          | None => 1
          end /\
      0 <= c <= 1.
Proof.
  split; [reflexivity|].
  apply ColorFacts.classifySeason_deterministic. reflexivity.
Defined.

Definition noFaceResult : Results.AnalysisResult :=
  Results.mkResult "oval" (Some "Soft Summer") (Some 0%Z) None None.

Definition noFaceConstructor : Results.AnalysisResult :=
  Results.mkResult "constructor" (Some "Soft Summer") (Some 0%Z) None None.

Lemma empty_samples_insufficient_witness :
  ColorCore.skin (ColorCore.mkColorSample [] [] []) = [] /\
  Pipeline.classifyColorSeason sampleCentroids 5 100 (ColorCore.mkColorSample [] [] [])
    = inl InsufficientSamples /\
  Results.faces_detected noFaceResult = Some 0%Z /\
  Results.isPrototypeKey (Results.face_shape noFaceResult) = false /\
  (exists page,
     Results.ResultsDisplay noFaceResult = Results.Page page /\
     In "No face detected, providing general analysis" page /\
     In "Color Season: Soft Summer" page) /\
  Results.faces_detected noFaceConstructor = Some 0%Z /\
  Results.isPrototypeKey (Results.face_shape noFaceConstructor) = true /\
  Results.ResultsDisplay noFaceConstructor = Results.TypeError "constructor".
Proof.
  destruct ColorFacts.empty_samples_insufficient as [_ [H2 H3]].
  split; [reflexivity|]. split; [apply H2; left; reflexivity|].
  split; [reflexivity|]. split; [vm_compute; reflexivity|].
  split; [apply (proj1 (H3 noFaceResult eq_refl)); right; vm_compute; reflexivity|].
  split; [reflexivity|]. split; [vm_compute; reflexivity|].
  apply (proj2 (H3 noFaceConstructor eq_refl)); [reflexivity | vm_compute; reflexivity].
Defined.

End Witnesses.

(* ------------------------------------------------------------------ *)
(** ** Runs of the further properties on concrete inputs *)

Module ExtraWitnesses.

Lemma runAtomic_in_range_witness :
  (1 <= 3)%Z /\ Walkthrough.inRange 3 Walkthrough.init /\
  Walkthrough.pending Walkthrough.init = [] /\
  Walkthrough.inRange 3
    (Walkthrough.runAtomic 3 Walkthrough.init
       [Walkthrough.Next; Walkthrough.Next; Walkthrough.Previous]) /\
  Walkthrough.pending
    (Walkthrough.runAtomic 3 Walkthrough.init
       [Walkthrough.Next; Walkthrough.Next; Walkthrough.Previous]) = [].
Proof.
  assert (H0 : Walkthrough.inRange 3 Walkthrough.init)
    by (unfold Walkthrough.inRange; simpl; lia).
  split; [lia|]. split; [exact H0|]. split; [reflexivity|].
  apply WalkthroughFacts.runAtomic_in_range; [lia | exact H0 | reflexivity].
Defined.

Definition touchStart : Nav.Point := Nav.mkPoint 0 0.
Definition touchRight : Nav.Point := Nav.mkPoint 80 10.

Lemma back_at_first_color_only_by_swipe_witness :
  Nav.handleTouchEnd 50 touchStart touchRight = Some Nav.SwipeRight /\
  (Walkthrough.currentIndex Walkthrough.init = 0%Z ->
     Nav.onKey 3 "ArrowLeft" Walkthrough.init = Walkthrough.init /\
     Nav.onBackButton Walkthrough.init = Walkthrough.init /\
     Nav.onSwipe 3 touchStart touchRight Walkthrough.init =
       Walkthrough.mkState (Walkthrough.currentIndex Walkthrough.init)
         (Walkthrough.isTransitioning Walkthrough.init)
         (Walkthrough.pending Walkthrough.init)
         (Walkthrough.effects Walkthrough.init ++ [Walkthrough.OnBack])%list) /\
  ((0 < Walkthrough.currentIndex Walkthrough.init)%Z ->
     Nav.onKey 3 "ArrowLeft" Walkthrough.init = Walkthrough.handlePrevious Walkthrough.init /\
     Nav.onBackButton Walkthrough.init = Walkthrough.handlePrevious Walkthrough.init /\
     Nav.onSwipe 3 touchStart touchRight Walkthrough.init =
       Walkthrough.handlePrevious Walkthrough.init).
Proof.
  assert (H : Nav.handleTouchEnd 50 touchStart touchRight = Some Nav.SwipeRight)
    by (vm_compute; reflexivity).
  split; [exact H|].
  apply NavFacts.back_at_first_color_only_by_swipe. exact H.
Defined.

Definition lastState : Walkthrough.State := Walkthrough.mkState 2 false [] [].

Lemma last_color_summary_witness :
  Walkthrough.currentIndex lastState = (3 - 1)%Z /\
  ("Enter" = "ArrowRight" \/ "Enter" = " " \/ "Enter" = "Enter") /\
  Nav.nextLabel (Walkthrough.currentIndex lastState) 3 = "Summary" /\
  Nav.nextAriaLabel Nav.canGoNext = "Next color" /\
  Nav.onKey 3 "Enter" lastState =
    Walkthrough.mkState (Walkthrough.currentIndex lastState)
      (Walkthrough.isTransitioning lastState) (Walkthrough.pending lastState)
      (Walkthrough.effects lastState ++ [Walkthrough.OnComplete])%list.
Proof.
  assert (H1 : Walkthrough.currentIndex lastState = (3 - 1)%Z) by reflexivity.
  assert (H2 : "Enter" = "ArrowRight" \/ "Enter" = " " \/ "Enter" = "Enter")
    by (right; right; reflexivity).
  split; [exact H1|]. split; [exact H2|].
  apply NavFacts.last_color_summary; [exact H1 | exact H2].
Defined.

Lemma progress_width_range_witness :
  (0 <= 1 <= 4 - 1)%Z /\
  0 < Nav.progressWidth 1 4 <= 100 /\
  (Nav.progressWidth 1 4 == 100 <-> 1%Z = (4 - 1)%Z).
Proof.
  split; [lia|]. apply NavFacts.progress_width_range. lia.
Defined.

Lemma upload_progress_capped_witness :
  (0 <= 95)%Z /\
  UploadExtra.ticks 25 0 = Z.min (0 + 5 * Z.of_nat 25) 95 /\
  (UploadExtra.ticks 25 0 <= 95)%Z.
Proof.
  split; [lia|]. apply UploadExtraFacts.upload_progress_capped. lia.
Defined.

Definition cameraStart : UploadExtra.CameraState :=
  UploadExtra.mkCamera (Upload.mkForm None None None) true.

Lemma camera_capture_skips_size_check_witness :
  (Upload.maxSize < 6 * 1024 * 1024)%Z /\
  let s' := UploadExtra.handleCameraCapture "data:image/jpeg;base64,AAAA"
              (UploadExtra.BlobOf (6 * 1024 * 1024)) cameraStart in
  Upload.file (UploadExtra.form s') = Some (Upload.mkFile "image/jpeg" (6 * 1024 * 1024)) /\
  Upload.entersPipeline (UploadExtra.form s') = true /\
  Upload.error (UploadExtra.form s') = Upload.error (UploadExtra.form cameraStart) /\
  Upload.validUpload (Upload.mkFile "image/jpeg" (6 * 1024 * 1024)) = false /\
  Upload.onDrop (fun _ => "blob:1") [Upload.mkFile "image/jpeg" (6 * 1024 * 1024)]
    (UploadExtra.form cameraStart) =
    Some (Upload.mkForm (Upload.file (UploadExtra.form cameraStart))
            (Upload.preview (UploadExtra.form cameraStart))
            (Some "File size should be less than 5MB")).
Proof.
  assert (H : (Upload.maxSize < 6 * 1024 * 1024)%Z) by (unfold Upload.maxSize; lia).
  split; [exact H|].
  apply UploadExtraFacts.camera_capture_skips_size_check. exact H.
Defined.

Definition sampleRecord : Compat.ComprehensiveAnalysisResult :=
  Compat.handleStartWalkthrough_record ResultsFacts.shapeOnly.

Lemma enhanced_success_ignores_backend_witness :
  Submit.useEnhancedAnalysis SubmitFacts.initialState = true /\
  Submit.handleSubmit true (Some sampleRecord) Witnesses.sampleReply
    SubmitFacts.initialState =
    Submit.mkSubmit false None None (Some sampleRecord) true.
Proof.
  split; [reflexivity|].
  apply SubmitExtraFacts.enhanced_success_ignores_backend. reflexivity.
Defined.

Definition processingData : Client.ResultsData := Client.mkData "processing" None None None.

Lemma fetch_progress_bounds_witness :
  (0 <= 3)%Z /\ (0 <= Client.progress Client.initClient <= 100)%Z /\
  let '(s', cur) := Client.fetchResults 3 (Client.Body processingData) Client.initClient in
  (0 <= Client.progress s' <= 100)%Z /\
  (cur = "pending" -> (10 <= Client.progress s' <= 40)%Z) /\
  (cur = "processing" -> (40 <= Client.progress s' <= 90)%Z).
Proof.
  assert (H : (0 <= Client.progress Client.initClient <= 100)%Z) by (simpl; lia).
  split; [lia|]. split; [exact H|].
  apply ClientFacts.fetch_progress_bounds; [lia | exact H].
Defined.

Definition completedEmpty : Client.ResultsData := Client.mkData "completed" None None None.

Lemma completed_without_results_stalls_witness :
  Client.d_status completedEmpty = "completed" /\ Client.d_results completedEmpty = None /\
  Client.error Client.initClient = None /\ Client.results Client.initClient = None /\
  let '(s', cur) := Client.fetchResults 2 (Client.Body completedEmpty) Client.initClient in
  Client.pollDecision 1 cur = Client.Stop /\ Client.error s' = None /\
  Client.results s' = None /\ Client.progress s' = Client.progress Client.initClient /\
  Client.render s' =
    Client.ProgressView "Analyzing Features" (Client.progress Client.initClient)
      "Analyzing image features. This may take up to a minute...".
Proof.
  split; [reflexivity|]. split; [reflexivity|]. split; [reflexivity|].
  split; [reflexivity|].
  apply ClientFacts.completed_without_results_stalls; reflexivity.
Defined.

Definition errorData : Client.ResultsData :=
  Client.mkData "error" None None (Some "Model crashed").

Lemma error_status_ends_polling_witness :
  Client.d_status errorData = "error" /\
  let '(s', cur) := Client.fetchResults 2 (Client.Body errorData) Client.initClient in
  Client.pollDecision 1 cur = Client.Stop /\ Client.progress s' = 0%Z /\
  Client.render s' = Client.FailedView (Submit.errorDetail (Client.d_error_detail errorData)).
Proof.
  split; [reflexivity|].
  apply ClientFacts.error_status_ends_polling. reflexivity.
Defined.

Definition pendingReply : Client.FetchReply :=
  Client.Body (Client.mkData "pending" None None None).

Lemma poll_chain_times_out_witness :
  (30 <= length (repeat pendingReply 30))%nat /\
  Forall Client.stillRunning (firstn 30 (repeat pendingReply 30)) /\
  snd (Client.pollChain 0 0 (repeat pendingReply 30) Client.initClient) = 30%nat /\
  Client.render (fst (Client.pollChain 0 0 (repeat pendingReply 30) Client.initClient)) =
    Client.FailedView "Analysis timed out. Please try again.".
Proof.
  assert (Hl : (30 <= length (repeat pendingReply 30))%nat) by (simpl; lia).
  assert (Hf : Forall Client.stillRunning (firstn 30 (repeat pendingReply 30))).
  { change (firstn 30 (repeat pendingReply 30)) with (repeat pendingReply 30).
    apply Forall_forall. intros x Hx. apply repeat_spec in Hx. subst x.
    eexists. split; [reflexivity|]. split; discriminate. }
  split; [exact Hl|]. split; [exact Hf|].
  apply ClientFacts.poll_chain_times_out; [exact Hl | exact Hf].
Defined.

Definition localData : Client.ResultsData :=
  Client.mkData "completed" (Some ResultsFacts.shapeOnly)
    (Some "Results from local analysis fallback") None.

Lemma local_analysis_banner_witness :
  Client.d_status localData = "completed" /\
  Client.d_results localData = Some ResultsFacts.shapeOnly /\
  Client.d_detail localData = Some "Results from local analysis fallback" /\
  Client.includes "Results from local analysis fallback" "local analysis" = true /\
  Client.error Client.initClient = None /\
  let '(s', cur) := Client.fetchResults 4 (Client.Body localData) Client.initClient in
  Client.pollDecision 1 cur = Client.Stop /\ Client.progress s' = 100%Z /\
  Client.render s' =
    match Results.ResultsDisplay ResultsFacts.shapeOnly with
    | Results.Page page => Client.ResultsView page (Some "Results from local analysis fallback")
    | Results.TypeError k => Client.RenderThrows k
    end.
Proof.
  assert (Hi : Client.includes "Results from local analysis fallback" "local analysis" = true)
    by (vm_compute; reflexivity).
  split; [reflexivity|]. split; [reflexivity|]. split; [reflexivity|].
  split; [exact Hi|]. split; [reflexivity|].
  apply ClientFacts.local_analysis_banner; [reflexivity | reflexivity | reflexivity | exact Hi |
                                            reflexivity].
Defined.

Definition paletteResult : Results.AnalysisResult :=
  Results.mkResult "Oval" (Some "Autumn") (Some 1%Z)
    (Some (Results.mkPalette "Warm earth tones"
             [Results.mkColor "Rust" "#B7410E"; Results.mkColor "Olive" "#808000"] []))
    None.

Definition jsonText (r : Compat.ComprehensiveAnalysisResult) : string := "{...}".
Definition drapingText (r : Results.AnalysisResult) (u id : string) : string := "{...}".
Definition readBack (t : string) : option Compat.ComprehensiveAnalysisResult :=
  Some (Compat.handleStartWalkthrough_record paletteResult).

Lemma walkthrough_handoff_witness :
  Results.AnalysisResultsEntry true paletteResult (Some "blob:photo") = Results.ShowEntryScreen /\
  "a1" <> "" /\
  jsonText (Compat.handleStartWalkthrough_record paletteResult) <> "" /\
  readBack (jsonText (Compat.handleStartWalkthrough_record paletteResult)) =
    Some (Compat.handleStartWalkthrough_record paletteResult) /\
  let '(st', route) :=
    Handoff.handleStartWalkthrough jsonText drapingText paletteResult "a1"
      (Some "blob:photo") [] in
  route = "/analyze/" ++ "a1" ++ "/walkthrough" /\
  Handoff.walkthroughPage readBack "a1" st' =
    Handoff.mkPage (Some (Compat.handleStartWalkthrough_record paletteResult))
      "blob:photo" false None (Some "a1") /\
  Handoff.renderPage "a1" (Handoff.walkthroughPage readBack "a1" st') =
    Handoff.WalkthroughView (Compat.handleStartWalkthrough_record paletteResult)
      "blob:photo" "a1".
Proof.
  assert (He : Results.AnalysisResultsEntry true paletteResult (Some "blob:photo") =
               Results.ShowEntryScreen) by reflexivity.
  assert (Hid : "a1" <> "") by discriminate.
  assert (Hj : jsonText (Compat.handleStartWalkthrough_record paletteResult) <> "")
    by discriminate.
  split; [exact He|]. split; [exact Hid|]. split; [exact Hj|]. split; [reflexivity|].
  apply HandoffFacts.walkthrough_handoff; [exact He | exact Hid | exact Hj | reflexivity].
Defined.

Lemma walkthrough_without_photo_not_found_witness :
  "a1" <> "" /\ Handoff.getItem ("photo_" ++ "a1") [] = None /\
  let '(st', route) :=
    Handoff.handleStartWalkthrough jsonText drapingText paletteResult "a1" None [] in
  st' = [] /\ route = "/analyze/" ++ "a1" ++ "/walkthrough" /\
  Handoff.renderPage "a1" (Handoff.walkthroughPage readBack "a1" st') =
    Handoff.NotFoundView "Analysis data not found. Please start a new analysis.".
Proof.
  assert (Hid : "a1" <> "") by discriminate.
  split; [exact Hid|]. split; [reflexivity|].
  apply HandoffFacts.walkthrough_without_photo_not_found; [exact Hid | reflexivity].
Defined.

Definition toStringResult : Results.AnalysisResult :=
  Results.mkResult "toString" (Some "Autumn") None None None.

Lemma fallback_recommendations_keys_witness :
  Results.isPrototypeKey "Oval" = false /\
  (exists l, Results.getFaceShapeRecommendations "Oval" = Results.JsArray l /\
             length l = 3%nat) /\
  Results.isPrototypeKey "toString" = true /\
  Results.getFaceShapeRecommendations "toString" = Results.InheritedMember "toString" /\
  Results.ResultsDisplay toStringResult = Results.TypeError "toString".
Proof.
  destruct (ResultsExtraFacts.fallback_recommendations_keys "Oval") as [H1 _].
  destruct (ResultsExtraFacts.fallback_recommendations_keys "toString") as [_ [H2 _]].
  assert (Ho : Results.isPrototypeKey "Oval" = false) by (vm_compute; reflexivity).
  assert (Ht : Results.isPrototypeKey "toString" = true) by (vm_compute; reflexivity).
  split; [exact Ho|]. split; [exact (H1 Ho)|]. split; [exact Ht|].
  destruct (H2 Ht) as [Hg Hr]. split; [exact Hg|].
  apply Hr; reflexivity.
Defined.

End ExtraWitnesses.
